(** * saglac_polls: the poll-by-poll election script [filtergeojson.py]

    A shallow embedding of [filtergeojson.py] and the properties its
    specification states about it.

    Conventions of the embedding.

    - A Python [str] is the list of its code points ([pystr]); literals are
      written [u "..."], which decodes the UTF-8 bytes of a Rocq string.
    - A Python [dict] is an association list in insertion order ([dict]).
    - A CSV cell as [pandas.read_csv] hands it over is a [cell]: missing
      ([NaN]), an integer ([Int]) or text ([Str]).  Vote counts are integers,
      held unbounded here; pandas keeps them in [int64], or in [float64] when
      the column has a missing value, and both agree with the unbounded
      integer below 2^53.  A text cell that pandas would turn into a number
      with a fraction or an exponent is outside this cell domain:
      [to_numeric] reads integer literals only.
    - Percentages are IEEE 754 binary64 numbers ([SpecFloat.spec_float] at
      precision 53, maximal exponent 1024).
    - [print] is an [event] appended to the log of the [world]; the files of
      the run live in the [world] as well.  Exceptions are values of [exn]
      and the functions that can raise return a [result].
    - The key column ['PD_NUM'] and the column ['geometry'] are typed
      components of a row (an integer and a geometry); every other column is
      looked up by name.
    - Reading a file fails when the path holds no file of the expected kind;
      writing a GeoJSON file is taken to succeed. *)

From Stdlib Require Import List ZArith NArith Lia Bool String Ascii.
From Stdlib Require Import SpecFloat DecimalString DecimalPos.
Import ListNotations.

Open Scope Z_scope.

(** ** Python strings *)

Definition pystr := list N.

(** UTF-8 decoding of a literal: [need] continuation bytes are still to come
    for the code point accumulated in [acc]. *)
Fixpoint utf8_decode (s : string) (need : nat) (acc : N) : pystr :=
  match s with
  | EmptyString => []
  | String a s' =>
      let b := N_of_ascii a in
      match need with
      | O =>
          if (b <? 128)%N then b :: utf8_decode s' 0 0%N
          else if (b <? 224)%N then utf8_decode s' 1 (b - 192)%N
          else if (b <? 240)%N then utf8_decode s' 2 (b - 224)%N
          else utf8_decode s' 3 (b - 240)%N
      | S O => (acc * 64 + (b - 128))%N :: utf8_decode s' 0 0%N
      | S n => utf8_decode s' n (acc * 64 + (b - 128))%N
      end
  end.

Definition u (s : string) : pystr := utf8_decode s 0 0%N.
Arguments u s : simpl never.

(** [a == b] on strings. *)
Fixpoint str_eqb (a b : pystr) : bool :=
  match a, b with
  | [], [] => true
  | x :: a', y :: b' => (x =? y)%N && str_eqb a' b'
  | _, _ => false
  end.

(** [s.startswith(p)]. *)
Fixpoint startswith (p s : pystr) : bool :=
  match p, s with
  | [], _ => true
  | x :: p', y :: s' => (x =? y)%N && startswith p' s'
  | _ :: _, [] => false
  end.

(** [needle in hay] on strings: [needle] occurs as a contiguous run. *)
Fixpoint str_in (needle hay : pystr) : bool :=
  startswith needle hay ||
  match hay with
  | [] => false
  | _ :: t => str_in needle t
  end.

(** [x in l] for a list of strings. *)
Definition list_in (x : pystr) (l : list pystr) : bool :=
  existsb (str_eqb x) l.

(** [str.isspace] of one code point: the characters [str.strip()] removes. *)
Definition isspace (c : N) : bool :=
  (((9 <=? c) && (c <=? 13)) || ((28 <=? c) && (c <=? 32)) ||
   (c =? 133) || (c =? 160) || (c =? 5760) ||
   ((8192 <=? c) && (c <=? 8202)) || (c =? 8232) || (c =? 8233) ||
   (c =? 8239) || (c =? 8287) || (c =? 12288))%N.

Fixpoint lstrip (s : pystr) : pystr :=
  match s with
  | [] => []
  | c :: s' => if isspace c then lstrip s' else s
  end.

Definition rstrip (s : pystr) : pystr := rev (lstrip (rev s)).

(** [s.strip()]. *)
Definition strip (s : pystr) : pystr := rstrip (lstrip s).

(** ** Python dictionaries *)

Definition dict (V : Type) := list (pystr * V).

Fixpoint dict_get {V} (k : pystr) (d : dict V) : option V :=
  match d with
  | [] => None
  | (k', v) :: d' => if str_eqb k k' then Some v else dict_get k d'
  end.

(** [d[k] = v]: the entry is replaced where it stands, or appended. *)
Fixpoint dict_set {V} (k : pystr) (v : V) (d : dict V) : dict V :=
  match d with
  | [] => [(k, v)]
  | (k', v') :: d' =>
      if str_eqb k k' then (k', v) :: d' else (k', v') :: dict_set k v d'
  end.

Definition dict_keys {V} (d : dict V) : list pystr := map fst d.
Definition dict_values {V} (d : dict V) : list V := map snd d.

(** ** Exceptions and results *)

Inductive exn :=
| KeyError (key : pystr)
| NotInIndex (missing : list pystr)
| IndexError
| ValueError (what : pystr)
| MergeError (duplicated : list pystr)
| AttributeError (what : pystr)
| FileNotFoundError (path : pystr)
| ParserError (path : pystr).

Inductive result (A : Type) :=
| Ok (a : A)
| Raise (e : exn).
Arguments Ok {A} a.
Arguments Raise {A} e.

Definition rbind {A B} (r : result A) (k : A -> result B) : result B :=
  match r with
  | Ok a => k a
  | Raise e => Raise e
  end.

(** [d[k]] on a dictionary, which raises [KeyError] on a missing key. *)
Definition dict_getitem {V} (d : dict V) (k : pystr) : result V :=
  match dict_get k d with
  | Some v => Ok v
  | None => Raise (KeyError k)
  end.

(** ** Tables *)

Inductive cell :=
| NaN
| Int (z : Z)
| Str (s : pystr).

(** One row of a table, by column name. *)
Definition row := dict cell.

Record DataFrame := {
  columns : list pystr;
  rows : list row
}.

(** The value of a row in a column; a field the file left out is [NaN]. *)
Definition row_get (col : pystr) (r : row) : cell :=
  match dict_get col r with
  | Some v => v
  | None => NaN
  end.

(** [df[col]]: the column as a series, [KeyError] when there is none. *)
Definition df_getitem (df : DataFrame) (col : pystr) : result (list cell) :=
  if list_in col (columns df) then Ok (map (row_get col) (rows df))
  else Raise (KeyError col).

(** [df[col] = series]. *)
Definition df_setitem (df : DataFrame) (col : pystr) (series : list cell)
  : DataFrame :=
  {| columns := if list_in col (columns df) then columns df
                else columns df ++ [col];
     rows := map (fun rv => dict_set col (snd rv) (fst rv))
                 (combine (rows df) series) |}.

(** [df[mask]]: the rows whose entry of the boolean series is true. *)
Definition df_mask (df : DataFrame) (mask : list bool) : DataFrame :=
  {| columns := columns df;
     rows := map fst (filter snd (combine (rows df) mask)) |}.

(** ** Values of the derived tables *)

Definition float64 := spec_float.
Definition prec : Z := 53.
Definition emax : Z := 1024.

(** The binary64 number nearest to an integer. *)
Definition Z2F (z : Z) : float64 := binary_normalize prec emax z 0 false.

Definition fdiv (x y : float64) : float64 := SFdiv prec emax x y.
Definition fmul (x y : float64) : float64 := SFmul prec emax x y.

Definition is_nan (f : float64) : bool :=
  match f with S754_nan => true | _ => false end.
Definition is_inf (f : float64) : bool :=
  match f with S754_infinity _ => true | _ => false end.

(** A value in the aggregated and joined tables. *)
Inductive value :=
| VNaN
| VInt (z : Z)
| VFloat (f : float64)
| VStr (s : pystr).

Definition value_of_cell (c : cell) : value :=
  match c with
  | NaN => VNaN
  | Int z => VInt z
  | Str s => VStr s
  end.

Definition vrow := dict value.

Definition vrow_get (col : pystr) (r : vrow) : value :=
  match dict_get col r with
  | Some v => v
  | None => VNaN
  end.

(** ** Events printed by the script, one constructor for each message *)

Inductive event :=
| Reading_csv (path : pystr)
| Warning_no_column (key : pystr)
| Detected_columns (district_num district_name pd_num pd_name : pystr)
    (candidate_cols : list pystr) (rejected total_votes electors : pystr)
| Processing_district (name number : cell)
| Reading_geojson (path : pystr)
| Total_features (n : nat)
| Unique_fed_num (vals : list value)
| Features_for_district (number : cell) (n : nat)
| Divisions_in_csv (n : nat)
| Divisions_in_geojson (n : nat)
| Merged_features (n : nat)
| Processing_complete (results_file simple_file : pystr)
| Sample_names (sample : list (Z * value))
| Usage
| Error_csv_not_found (path : pystr)
| Error_geojson_not_found (path : pystr)
| Html_template (candidate_cols : list pystr) (simple_file : pystr)
| Error_processing (e : exn).

(** ** [detect_columns] *)

Definition patterns : dict (list pystr) :=
  [ (u "district_number",
      [u "Electoral District Number"; u "Numéro de circonscription"]);
    (u "district_name",
      [u "Electoral District Name"; u "Nom de circonscription"]);
    (u "pd_number",
      [u "Polling Division Number"; u "Numéro de section de vote"]);
    (u "pd_name",
      [u "Polling Division Name"; u "Nom de section de vote"]);
    (u "rejected", [u "Rejected Ballots"; u "Bulletins rejetés"]);
    (u "total_votes", [u "Total Votes"; u "Total des votes"]);
    (u "electors", [u "Electors"; u "Électeurs"]) ].

(** The inner [for pattern in patterns: ... break] loop for one key: [Some]
    is the column stored on [break], [None] is the [else] branch. *)
Fixpoint first_match (cols : list pystr) (pats : list pystr) : option pystr :=
  match pats with
  | [] => None
  | pattern :: pats' =>
      match filter (str_in pattern) cols with
      | col :: _ => Some col
      | [] => first_match cols pats'
      end
  end.

(** The outer loop over [patterns.items()], carrying [detected] and the
    warnings printed so far. *)
Fixpoint find_standard (cols : list pystr) (items : dict (list pystr))
    (detected : dict pystr) (log : list event) : dict pystr * list event :=
  match items with
  | [] => (detected, log)
  | (key, pats) :: items' =>
      match first_match cols pats with
      | Some col => find_standard cols items' (dict_set key col detected) log
      | None =>
          find_standard cols items' detected (log ++ [Warning_no_column key])
      end
  end.

Definition stop_fragments : list pystr :=
  [u "rejected"; u "total"; u "elector"; u "number"; u "name"; u "division"].

(** The dictionary [detect_columns] returns: the entries of the standard
    fields, and the list stored under ['candidates']. *)
Record ColumnMapping := {
  standard : dict pystr;
  candidates : list pystr
}.

(** Lines 143-176.  [detect_columns(df)] reads nothing of [df] but
    [df.columns.tolist()], which is [cols] here; the warnings it prints are
    returned beside the mapping and logged by the caller. *)
Definition detect_columns (cols : list pystr) : ColumnMapping * list event :=
  let '(detected, log) := find_standard cols patterns [] [] in
  let standard_cols := dict_values detected in
  let candidate_cols :=
    filter (fun col =>
              negb (list_in col standard_cols) &&
              negb (existsb (fun x => str_in x col) stop_fragments))
           cols in
  ({| standard := detected; candidates := candidate_cols |}, log).

(** ** Series operations *)

Definition decimal (z : Z) : pystr := u (NilZero.string_of_int (Z.to_int z)).

(** [series.astype(str)], cell by cell. *)
Definition astype_str (c : cell) : pystr :=
  match c with
  | NaN => u "nan"
  | Int z => decimal z
  | Str s => s
  end.

(** [series.str.contains(pat, na=False)] for a pattern without regular
    expression operators, cell by cell. *)
Definition str_contains (pat s : pystr) : bool := str_in pat s.

Definition isspace_ascii (c : N) : bool :=
  ((c =? 32) || ((9 <=? c) && (c <=? 13)))%N.

Definition digit (c : N) : option Z :=
  if ((48 <=? c) && (c <=? 57))%N then Some (Z.of_N (c - 48)) else None.

(** The digits of an integer literal, then blanks up to the end. *)
Fixpoint parse_digits (s : pystr) (acc : Z) : option Z :=
  match s with
  | [] => Some acc
  | c :: s' =>
      match digit c with
      | Some d => parse_digits s' (10 * acc + d)
      | None => if forallb isspace_ascii s then Some acc else None
      end
  end.

Definition parse_unsigned (s : pystr) : option Z :=
  match s with
  | [] => None
  | c :: _ => match digit c with
              | Some _ => parse_digits s 0
              | None => None
              end
  end.

Fixpoint skip_blanks (s : pystr) : pystr :=
  match s with
  | [] => []
  | c :: s' => if isspace_ascii c then skip_blanks s' else s
  end.

(** An integer literal: blanks, a sign, digits, blanks. *)
Definition parse_int (s : pystr) : option Z :=
  match skip_blanks s with
  | [] => None
  | c :: s' =>
      if (c =? 45)%N then option_map Z.opp (parse_unsigned s')
      else if (c =? 43)%N then parse_unsigned s'
      else parse_unsigned (c :: s')
  end.

(** [pd.to_numeric(series, errors='coerce')], cell by cell: [None] is the
    missing-value marker. *)
Definition to_numeric (c : cell) : option Z :=
  match c with
  | NaN => None
  | Int z => Some z
  | Str s => parse_int s
  end.

Definition cell_of_numeric (n : option Z) : cell :=
  match n with
  | Some z => Int z
  | None => NaN
  end.

(** [series.fillna(v)] on a numeric series. *)
Definition fillna (v : Z) (n : option Z) : Z :=
  match n with
  | Some z => z
  | None => v
  end.

(** Line 74 for one cell:
    [pd.to_numeric(cell.astype(str).str.strip(), errors='coerce')
       .fillna(0).astype(int)]. *)
Definition pd_num_of_cell (c : cell) : Z :=
  fillna 0 (to_numeric (Str (strip (astype_str c)))).

(** ** [filter_combined_rows] *)

Definition filter_combined_rows (df : DataFrame) (first_candidate_col : pystr)
  : result DataFrame :=
  rbind (df_getitem df first_candidate_col) (fun series =>
  Ok (df_mask df
        (map (fun c => negb (str_contains (u "Combined") (astype_str c)))
             series))).

(** ** Grouping by ['PD_NUM'] *)

(** The cleaned table with its ['PD_NUM'] column: each row with its key. *)
Definition keyed := list (Z * row).

Fixpoint insert_key (k : Z) (ks : list Z) : list Z :=
  match ks with
  | [] => [k]
  | k' :: ks' =>
      if k <? k' then k :: ks
      else if k =? k' then ks
      else k' :: insert_key k ks'
  end.

(** The group labels of [groupby]: the distinct keys in ascending order. *)
Definition group_keys (keys : list Z) : list Z := fold_right insert_key [] keys.

(** A cell as [sum()] counts it: a missing value is skipped. *)
Definition count_of (c : cell) : Z :=
  match c with
  | Int z => z
  | _ => 0
  end.

(** [groupby('PD_NUM')[col].sum()] for the label [k]: one pass over the
    rows, adding into the accumulator of the label. *)
Definition group_sum (k : Z) (col : pystr) (t : keyed) : Z :=
  fold_left (fun acc kr =>
               if fst kr =? k then acc + count_of (row_get col (snd kr))
               else acc)
            t 0.

Definition notnull (c : cell) : bool :=
  match c with
  | NaN => false
  | _ => true
  end.

(** [groupby('PD_NUM')[col].first()] for the label [k]. *)
Fixpoint group_first (k : Z) (col : pystr) (t : keyed) : cell :=
  match t with
  | [] => NaN
  | (k', r) :: t' =>
      if (k' =? k) && notnull (row_get col r) then row_get col r
      else group_first k col t'
  end.

(** A derived table: named columns beside the key ['PD_NUM']. *)
Record ResultFrame := {
  rcolumns : list pystr;
  rrows : list (Z * vrow)
}.

(** [frame[col] = series]. *)
Definition rf_setitem (res : ResultFrame) (col : pystr) (series : list value)
  : ResultFrame :=
  {| rcolumns := if list_in col (rcolumns res) then rcolumns res
                 else rcolumns res ++ [col];
     rrows := map (fun rv => (fst (fst rv), dict_set col (snd rv) (snd (fst rv))))
                  (combine (rrows res) series) |}.

(** Lines 77-78: the names table, columns ['PD_NUM'] and ['PD_NAME']. *)
Definition groupby_first (t : keyed) (pd_name_col : pystr) : list (Z * cell) :=
  map (fun k => (k, group_first k pd_name_col t)) (group_keys (map fst t)).

(** Line 81: [groupby('PD_NUM')[numeric_cols].sum().reset_index()].
    [reset_index] cannot insert ['PD_NUM'] beside a summed column of that
    name. *)
Definition groupby_sum (t : keyed) (numeric_cols : list pystr)
  : result ResultFrame :=
  if list_in (u "PD_NUM") numeric_cols
  then Raise (ValueError (u "cannot insert PD_NUM, already exists"))
  else Ok {| rcolumns := numeric_cols;
             rrows := map (fun k =>
                             (k, map (fun col => (col, VInt (group_sum k col t)))
                                     numeric_cols))
                          (group_keys (map fst t)) |}.

(** ** Percentages and the leading candidate *)

Definition to_float (v : value) : float64 :=
  match v with
  | VInt z => Z2F z
  | VFloat f => f
  | _ => S754_nan
  end.

(** [votes / total * 100]. *)
Definition percentage (votes total : value) : value :=
  VFloat (fmul (fdiv (to_float votes) (to_float total)) (Z2F 100)).

(** One turn of the loop of lines 84-87. *)
Definition add_pct (total_votes_col : pystr) (res : ResultFrame)
    (candidate : pystr) : ResultFrame :=
  rf_setitem res (candidate ++ u "_pct")
    (map (fun kr => percentage (vrow_get candidate (snd kr))
                               (vrow_get total_votes_col (snd kr)))
         (rrows res)).

Definition add_percentages (candidate_cols : list pystr)
    (total_votes_col : pystr) (res : ResultFrame) : ResultFrame :=
  fold_left (add_pct total_votes_col) candidate_cols res.

(** [a > b] on the numbers of a row. *)
Definition value_gt (a b : value) : bool :=
  match a, b with
  | VInt x, VInt y => y <? x
  | _, _ => match SFcompare (to_float a) (to_float b) with
            | Some Gt => true
            | _ => false
            end
  end.

(** [max(items, key=key)] once a first item is in hand: a later item takes
    over only when its key is strictly greater. *)
Fixpoint max_by (key : pystr -> value) (best : pystr) (items : list pystr)
  : pystr :=
  match items with
  | [] => best
  | x :: items' =>
      if value_gt (key x) (key best) then max_by key x items'
      else max_by key best items'
  end.

Definition find_leading_candidate (r : vrow) (candidate_cols : list pystr)
  : result pystr :=
  let candidate_votes :=
    fold_left (fun d candidate => dict_set candidate (vrow_get candidate r) d)
              candidate_cols [] in
  match dict_keys candidate_votes with
  | [] => Raise (ValueError (u "max() arg is an empty sequence"))
  | c :: cs => Ok (max_by (fun k => vrow_get k candidate_votes) c cs)
  end.

(** Collects the results of a row-wise [apply]; the first failure wins. *)
Fixpoint collect {A} (l : list (result A)) : result (list A) :=
  match l with
  | [] => Ok []
  | r :: l' => rbind r (fun a => rbind (collect l') (fun t => Ok (a :: t)))
  end.

(** Lines 90-95.  On a table without rows [apply] hands back a table, which
    cannot be stored in one column. *)
Definition add_leading (candidate_cols : list pystr) (res : ResultFrame)
  : result ResultFrame :=
  match rrows res with
  | [] => Raise (ValueError (u "Cannot set a DataFrame with multiple columns"))
  | _ =>
      rbind (collect (map (fun kr => find_leading_candidate (snd kr) candidate_cols)
                          (rrows res))) (fun leaders =>
      let res1 := rf_setitem res (u "leading_candidate") (map VStr leaders) in
      Ok (rf_setitem res1 (u "leading_candidate_pct")
            (map (fun kr =>
                    match vrow_get (u "leading_candidate") (snd kr) with
                    | VStr name => vrow_get (name ++ u "_pct") (snd kr)
                    | _ => VNaN
                    end)
                 (rrows res1))))
  end.

(** ** Merging tables on ['PD_NUM'] *)

(** The name a column takes in a merge: a name both sides have gets the
    suffix of its side. *)
Definition suffixed (sfx : pystr) (other : list pystr) (c : pystr) : pystr :=
  if list_in c other then c ++ sfx else c.

Fixpoint duplicates (l : list pystr) : list pystr :=
  match l with
  | [] => []
  | x :: l' => if list_in x l' then x :: duplicates l' else duplicates l'
  end.

Definition rename_keys {V} (f : pystr -> pystr) (d : dict V) : dict V :=
  map (fun kv => (f (fst kv), snd kv)) d.

(** The columns of [left.merge(right, on='PD_NUM')] beside the key; suffixes
    that produce a name twice are refused. *)
Definition merge_columns (left right : list pystr) : result (list pystr) :=
  let cols := map (suffixed (u "_x") right) left
              ++ map (suffixed (u "_y") left) right in
  match duplicates cols with
  | [] => Ok cols
  | d => Raise (MergeError d)
  end.

(** Line 98: [results.merge(polling_division_names, on='PD_NUM', how='left')]. *)
Definition merge_names (res : ResultFrame) (names : list (Z * cell))
  : result ResultFrame :=
  rbind (merge_columns (rcolumns res) [u "PD_NAME"]) (fun cols =>
  let name_col := suffixed (u "_y") (rcolumns res) (u "PD_NAME") in
  let left kr := rename_keys (suffixed (u "_x") [u "PD_NAME"]) (snd kr) in
  Ok {| rcolumns := cols;
        rrows :=
          flat_map (fun kr =>
            match filter (fun kn => fst kn =? fst kr) names with
            | [] => [(fst kr, left kr ++ [(name_col, VNaN)])]
            | ms => map (fun kn =>
                           (fst kr,
                            left kr ++ [(name_col, value_of_cell (snd kn))]))
                        ms
            end) (rrows res) |}).

Section Geo.

(** The geometries of the boundary file and the reprojection of one of them
    to EPSG:4326 are those of geopandas. *)
Variable geometry : Type.
Variable reproject : geometry -> geometry.

Record Feature := {
  PD_NUM : Z;
  attrs : vrow;
  geom : geometry
}.

(** A [GeoDataFrame]: [gcolumns] are its columns beside ['PD_NUM'] and
    ['geometry']. *)
Record GeoFrame := {
  gcolumns : list pystr;
  features : list Feature
}.

Definition gf_getitem (gdf : GeoFrame) (col : pystr) : result (list value) :=
  if list_in col (gcolumns gdf)
  then Ok (map (fun f => vrow_get col (attrs f)) (features gdf))
  else Raise (KeyError col).

Definition gf_mask (gdf : GeoFrame) (mask : list bool) : GeoFrame :=
  {| gcolumns := gcolumns gdf;
     features := map fst (filter snd (combine (features gdf) mask)) |}.

(** [v == c] between an attribute of a feature and a cell of the CSV. *)
Definition value_eq_cell (v : value) (c : cell) : bool :=
  match v, c with
  | VInt a, Int b => a =? b
  | VFloat f, Int b => SFeqb f (Z2F b)
  | VStr s, Str t => str_eqb s t
  | _, _ => false
  end.

(** Lines 104-108: [gdf_district.merge(results, on='PD_NUM', how='inner')]. *)
Definition merge_inner (gdf : GeoFrame) (res : ResultFrame) : result GeoFrame :=
  rbind (merge_columns (gcolumns gdf) (rcolumns res)) (fun cols =>
  Ok {| gcolumns := cols;
        features :=
          flat_map (fun f =>
            map (fun kr =>
                   {| PD_NUM := PD_NUM f;
                      attrs := rename_keys (suffixed (u "_x") (rcolumns res))
                                           (attrs f)
                               ++ rename_keys (suffixed (u "_y") (gcolumns gdf))
                                              (snd kr);
                      geom := geom f |})
                (filter (fun kr => fst kr =? PD_NUM f) (rrows res)))
            (features gdf) |}).

(** Line 113: [merged_gdf.to_crs('EPSG:4326')].  A column of the results
    that is itself named ['geometry'] makes the merge rename both, and the
    table is left without its geometry column. *)
Definition to_crs (gdf : GeoFrame) : result GeoFrame :=
  if list_in (u "geometry") (gcolumns gdf)
  then Raise (AttributeError (u "geometry"))
  else Ok {| gcolumns := gcolumns gdf;
             features := map (fun f => {| PD_NUM := PD_NUM f;
                                          attrs := attrs f;
                                          geom := reproject (geom f) |})
                             (features gdf) |}.

(** Line 123: [merged_gdf[simple_columns]], for the columns selected beside
    ['PD_NUM'] and ['geometry']. *)
Definition gf_select (gdf : GeoFrame) (cols : list pystr) : result GeoFrame :=
  match filter (fun c => negb (list_in c (gcolumns gdf))) cols with
  | [] => Ok {| gcolumns := cols;
                features :=
                  map (fun f => {| PD_NUM := PD_NUM f;
                                   attrs := map (fun c => (c, vrow_get c (attrs f)))
                                                cols;
                                   geom := geom f |})
                      (features gdf) |}
  | missing => Raise (NotInIndex missing)
  end.

(** ** The files and the log of a run *)

Inductive file :=
| CsvFile (df : DataFrame)
| GeoJSON (gdf : GeoFrame).

Record world := {
  files : dict file;
  log : list event
}.

(** A step of the script: it returns or raises, and leaves a world. *)
Definition M (A : Type) := world -> result A * world.

Definition ret {A} (a : A) : M A := fun w => (Ok a, w).

Definition bind {A B} (m : M A) (k : A -> M B) : M B :=
  fun w => match m w with
           | (Ok a, w') => k a w'
           | (Raise e, w') => (Raise e, w')
           end.

Definition lift {A} (r : result A) : M A := fun w => (r, w).

Definition print (e : event) : M unit :=
  fun w => (Ok tt, {| files := files w; log := log w ++ [e] |}).

Definition print_all (es : list event) : M unit :=
  fun w => (Ok tt, {| files := files w; log := log w ++ es |}).

(** [try: body except Exception as e: handler(e)]. *)
Definition try_except {A} (body : M A) (handler : exn -> M A) : M A :=
  fun w => match body w with
           | (Ok a, w') => (Ok a, w')
           | (Raise e, w') => handler e w'
           end.

Notation "x <- m ;; k" := (bind m (fun x => k))
  (at level 61, m at next level, right associativity).
Notation "m ;;; k" := (bind m (fun _ => k))
  (at level 61, right associativity).

Definition read_csv (path : pystr) : M DataFrame :=
  fun w => match dict_get path (files w) with
           | Some (CsvFile df) => (Ok df, w)
           | Some (GeoJSON _) => (Raise (ParserError path), w)
           | None => (Raise (FileNotFoundError path), w)
           end.

Definition read_file (path : pystr) : M GeoFrame :=
  fun w => match dict_get path (files w) with
           | Some (GeoJSON gdf) => (Ok gdf, w)
           | Some (CsvFile _) => (Raise (ParserError path), w)
           | None => (Raise (FileNotFoundError path), w)
           end.

(** [gdf.to_file(path, driver='GeoJSON')]; the write is taken to succeed. *)
Definition to_file (gdf : GeoFrame) (path : pystr) : M unit :=
  fun w => (Ok tt, {| files := dict_set path (GeoJSON gdf) (files w);
                      log := log w |}).

Definition path_exists (path : pystr) : M bool :=
  fun w => (Ok (match dict_get path (files w) with
                | Some _ => true
                | None => false
                end), w).

(** ** File names *)

Fixpoint take_until (c : N) (s : pystr) : pystr :=
  match s with
  | [] => []
  | x :: s' => if (x =? c)%N then [] else x :: take_until c s'
  end.

Fixpoint drop_until (c : N) (s : pystr) : pystr :=
  match s with
  | [] => []
  | x :: s' => if (x =? c)%N then s else drop_until c s'
  end.

(** [os.path.basename(p)]: what follows the last ['/']. *)
Definition basename (p : pystr) : pystr := rev (take_until 47 (rev p)).

(** [os.path.splitext(b)[0]] for a name without ['/']: the extension starts
    at the last dot, unless only dots come before it. *)
Definition splitext_root (b : pystr) : pystr :=
  match drop_until 46 (rev b) with
  | [] => b
  | _ :: root_rev =>
      if existsb (fun c => negb (c =? 46)%N) root_rev then rev root_rev else b
  end.

(** ** [process_election_data] *)

Record Summary := {
  district_number : cell;
  district_name : cell;
  summary_candidates : list pystr;
  results_file : pystr;
  simple_file : pystr
}.

(** [series.iloc[0]]. *)
Definition iloc0 {A} (series : list A) : result A :=
  match series with
  | [] => Raise IndexError
  | x :: _ => Ok x
  end.

(** The loop of lines 70-71. *)
Fixpoint convert_numeric (df : DataFrame) (numeric_cols : list pystr)
  : result DataFrame :=
  match numeric_cols with
  | [] => Ok df
  | col :: cols' =>
      rbind (df_getitem df col) (fun series =>
      convert_numeric
        (df_setitem df col (map (fun c => cell_of_numeric (to_numeric c)) series))
        cols')
  end.

(** Line 74: the rows of the cleaned table with their ['PD_NUM']. *)
Definition with_pd_num (df : DataFrame) (pd_num_col : pystr) : result keyed :=
  rbind (df_getitem df pd_num_col) (fun series =>
  Ok (combine (map pd_num_of_cell series) (rows df))).

(** Lines 66-98: from the raw table to the table of aggregates. *)
Definition aggregate (csv_data : DataFrame)
    (pd_num_col pd_name_col : pystr) (candidate_cols : list pystr)
    (rejected_col total_votes_col electors_col : pystr) : result ResultFrame :=
  rbind (iloc0 candidate_cols) (fun first_candidate_col =>
  rbind (filter_combined_rows csv_data first_candidate_col) (fun csv_clean =>
  let numeric_cols :=
    candidate_cols ++ [rejected_col; total_votes_col; electors_col] in
  rbind (convert_numeric csv_clean numeric_cols) (fun csv_clean =>
  rbind (with_pd_num csv_clean pd_num_col) (fun t =>
  let polling_division_names := groupby_first t pd_name_col in
  rbind (groupby_sum t numeric_cols) (fun polling_division_results =>
  let polling_division_results :=
    add_percentages candidate_cols total_votes_col polling_division_results in
  rbind (add_leading candidate_cols polling_division_results)
    (fun polling_division_results =>
  merge_names polling_division_results polling_division_names)))))).

Definition nunique (keys : list Z) : nat := List.length (group_keys keys).

Fixpoint unique_values (seen : list value) (l : list value) : list value :=
  match l with
  | [] => []
  | v :: l' =>
      if existsb (fun s => match s, v with
                           | VNaN, VNaN => true
                           | VInt a, VInt b => a =? b
                           | VStr a, VStr b => str_eqb a b
                           | VFloat a, VFloat b => SFeqb a b || (is_nan a && is_nan b)
                           | _, _ => false
                           end) seen
      then unique_values seen l'
      else v :: unique_values (v :: seen) l'
  end.

Definition simple_columns (candidate_cols : list pystr)
    (numeric_cols : list pystr) : list pystr :=
  [u "PD_NAME"] ++ numeric_cols
  ++ [u "leading_candidate"; u "leading_candidate_pct"]
  ++ map (fun candidate => candidate ++ u "_pct") candidate_cols.

(** Lines 18-19: the prefix of the output files. *)
Definition output_name (csv_filename : pystr) (output_prefix : option pystr)
  : pystr :=
  match output_prefix with
  | None => splitext_root (basename csv_filename)
  | Some p => p
  end.

Definition process_election_data (csv_filename geojson_filename : pystr)
    (output_prefix : option pystr) : M Summary :=
  let output_prefix := output_name csv_filename output_prefix in
  print (Reading_csv csv_filename) ;;;
  csv_data <- read_csv csv_filename ;;
  let '(column_mapping, warnings) := detect_columns (columns csv_data) in
  print_all warnings ;;;
  district_num_col <- lift (dict_getitem (standard column_mapping) (u "district_number")) ;;
  district_name_col <- lift (dict_getitem (standard column_mapping) (u "district_name")) ;;
  pd_num_col <- lift (dict_getitem (standard column_mapping) (u "pd_number")) ;;
  pd_name_col <- lift (dict_getitem (standard column_mapping) (u "pd_name")) ;;
  let candidate_cols := candidates column_mapping in
  rejected_col <- lift (dict_getitem (standard column_mapping) (u "rejected")) ;;
  total_votes_col <- lift (dict_getitem (standard column_mapping) (u "total_votes")) ;;
  electors_col <- lift (dict_getitem (standard column_mapping) (u "electors")) ;;
  print (Detected_columns district_num_col district_name_col pd_num_col
           pd_name_col candidate_cols rejected_col total_votes_col electors_col) ;;;
  district_number <- lift (rbind (df_getitem csv_data district_num_col) iloc0) ;;
  district_name <- lift (rbind (df_getitem csv_data district_name_col) iloc0) ;;
  print (Processing_district district_name district_number) ;;;
  print (Reading_geojson geojson_filename) ;;;
  gdf <- read_file geojson_filename ;;
  print (Total_features (List.length (features gdf))) ;;;
  fed_num <- lift (gf_getitem gdf (u "FED_NUM")) ;;
  print (Unique_fed_num (unique_values [] fed_num)) ;;;
  let gdf_district :=
    gf_mask gdf (map (fun v => value_eq_cell v district_number) fed_num) in
  print (Features_for_district district_number (List.length (features gdf_district))) ;;;
  polling_division_results <-
    lift (aggregate csv_data pd_num_col pd_name_col candidate_cols
            rejected_col total_votes_col electors_col) ;;
  let numeric_cols :=
    candidate_cols ++ [rejected_col; total_votes_col; electors_col] in
  print (Divisions_in_csv (nunique (map fst (rrows polling_division_results)))) ;;;
  print (Divisions_in_geojson (nunique (map PD_NUM (features gdf_district)))) ;;;
  merged_gdf <- lift (merge_inner gdf_district polling_division_results) ;;
  print (Merged_features (List.length (features merged_gdf))) ;;;
  merged_gdf <- lift (to_crs merged_gdf) ;;
  let results_filename := output_prefix ++ u "_election_results.geojson" in
  let simple_filename := output_prefix ++ u "_election_simple.geojson" in
  to_file merged_gdf results_filename ;;;
  simple_gdf <- lift (gf_select merged_gdf (simple_columns candidate_cols numeric_cols)) ;;
  to_file simple_gdf simple_filename ;;;
  print (Processing_complete results_filename simple_filename) ;;;
  print (Sample_names
           (map (fun f => (PD_NUM f, vrow_get (u "PD_NAME") (attrs f)))
                (firstn 10 (features merged_gdf)))) ;;;
  ret {| district_number := district_number;
         district_name := district_name;
         summary_candidates := candidate_cols;
         results_file := results_filename;
         simple_file := simple_filename |}.

(** ** [main] *)

Definition main (argv : list pystr) : M unit :=
  match argv with
  | [] | [_] => print Usage ;;; ret tt
  | _ :: csv_filename :: rest =>
      let geojson_filename :=
        match rest with
        | g :: _ => g
        | [] => u "polling_divisions.geojson"
        end in
      let output_prefix :=
        match rest with
        | _ :: p :: _ => Some p
        | _ => None
        end in
      csv_exists <- path_exists csv_filename ;;
      if negb csv_exists then print (Error_csv_not_found csv_filename) ;;; ret tt
      else
        geojson_exists <- path_exists geojson_filename ;;
        if negb geojson_exists
        then print (Error_geojson_not_found geojson_filename) ;;; ret tt
        else
          try_except
            (result <- process_election_data csv_filename geojson_filename
                                             output_prefix ;;
             print (Html_template (summary_candidates result)
                                  (simple_file result)) ;;;
             ret tt)
            (fun e => print (Error_processing e) ;;; lift (Raise e))
  end.

End Geo.

Arguments PD_NUM {geometry} f.
Arguments attrs {geometry} f.
Arguments geom {geometry} f.
Arguments Build_Feature {geometry} PD_NUM attrs geom.
Arguments gcolumns {geometry} g.
Arguments features {geometry} g.
Arguments Build_GeoFrame {geometry} gcolumns features.
Arguments CsvFile {geometry} df.
Arguments GeoJSON {geometry} gdf.
Arguments files {geometry} w.
Arguments log {geometry} w.
Arguments Build_world {geometry} files log.
Arguments gf_getitem {geometry} gdf col.
Arguments gf_mask {geometry} gdf mask.
Arguments merge_inner {geometry} gdf res.
Arguments to_crs {geometry} reproject gdf.
Arguments gf_select {geometry} gdf cols.
Arguments ret {geometry A} a w.
Arguments bind {geometry A B} m k w.
Arguments lift {geometry A} r w.
Arguments print {geometry} e w.
Arguments print_all {geometry} es w.
Arguments try_except {geometry A} body handler w.
Arguments read_csv {geometry} path w.
Arguments read_file {geometry} path w.
Arguments to_file {geometry} gdf path w.
Arguments path_exists {geometry} path w.
Arguments process_election_data {geometry} reproject csv_filename
  geojson_filename output_prefix w.
Arguments main {geometry} reproject argv w.

(** ** Vocabulary of the statements *)

(** [needle] occurs in [hay] as a contiguous run. *)
Definition substring (needle hay : pystr) : Prop :=
  exists before after, hay = before ++ needle ++ after.

(** The header a field resolves to: [pattern] is the first fragment of
    [pats] that occurs in some header, and [h] the first header in which it
    occurs. *)
Definition resolves (cols pats : list pystr) (h : pystr) : Prop :=
  exists earlier pattern later before after,
    pats = earlier ++ pattern :: later /\
    (forall p c, In p earlier -> In c cols -> ~ substring p c) /\
    cols = before ++ h :: after /\
    substring pattern h /\
    (forall c, In c before -> ~ substring pattern c).

(** No fragment of [pats] occurs in any header. *)
Definition unmatched (cols pats : list pystr) : Prop :=
  forall p c, In p pats -> In c cols -> ~ substring p c.

(** The rows [filter_combined_rows] keeps. *)
Definition not_combined (col : pystr) (r : row) : bool :=
  negb (str_contains (u "Combined") (astype_str (row_get col r))).







(** One turn of the loop of lines 84-87, on one row. *)
Definition row_add_pct (total_votes_col : pystr) (r : vrow) (candidate : pystr)
  : vrow :=
  dict_set (candidate ++ u "_pct")
           (percentage (vrow_get candidate r) (vrow_get total_votes_col r)) r.

(** The keys of a dictionary filled from a list: each name once, at its
    first occurrence. *)
Fixpoint first_occurrences (seen l : list pystr) : list pystr :=
  match l with
  | [] => []
  | x :: l' =>
      if list_in x seen then first_occurrences seen l'
      else x :: first_occurrences (seen ++ [x]) l'
  end.







(** ** Sample tables *)

Definition sample_headers : list pystr :=
  [u "Polling Division Number"; u "Polling Division Name"; u "Alice"; u "Bob";
   u "Rejected Ballots"; u "Total Votes"; u "Electors"].

Definition sample_row (cells : list cell) : row := combine sample_headers cells.

(** Division 100 with a combined placeholder row and two counted rows. *)
Definition combined_table : DataFrame :=
  {| columns := sample_headers;
     rows :=
       [ sample_row [Str (u "100"); Str (u "North"); Str (u "Combined"); Int 100;
                     Int 0; Int 100; Int 300];
         sample_row [Str (u "100"); Str (u "North"); Str (u "5"); Int 2;
                     Int 0; Int 7; Int 150];
         sample_row [Str (u "100"); Str (u "North"); Str (u "7"); Int 1;
                     Int 1; Int 9; Int 150] ] |}.

(** Division 100 with a row whose first candidate cell is missing. *)
Definition missing_table : DataFrame :=
  {| columns := sample_headers;
     rows :=
       [ sample_row [Str (u "100"); Str (u "North"); NaN; Int 4;
                     Int 0; Int 4; Int 150];
         sample_row [Str (u "100"); Str (u "North"); Str (u "3"); Int 6;
                     Int 1; Int 10; Int 150] ] |}.



(** [aggregate] with the columns of the sample tables. *)
Definition sample_aggregate (df : DataFrame) : result ResultFrame :=
  aggregate df (u "Polling Division Number") (u "Polling Division Name")
            [u "Alice"; u "Bob"]
            (u "Rejected Ballots") (u "Total Votes") (u "Electors").






(** The column [col] of a derived table, with the keys. *)
Definition column_of (col : pystr) (res : ResultFrame) : list (Z * value) :=
  map (fun kr => (fst kr, vrow_get col (snd kr))) (rrows res).

(** ** A sample run *)

Definition run_headers : list pystr :=
  [u "Electoral District Number"; u "Electoral District Name"] ++ sample_headers.

Definition run_row (cells : list cell) : row := combine run_headers cells.

Definition run_table : DataFrame :=
  {| columns := run_headers;
     rows :=
       [ run_row [Int 24030; Str (u "Jonquiere"); Str (u "100"); Str (u "North");
                  Str (u "Combined"); Int 100; Int 0; Int 100; Int 300];
         run_row [Int 24030; Str (u "Jonquiere"); Str (u "100"); Str (u "North");
                  Str (u "5"); Int 2; Int 0; Int 7; Int 150];
         run_row [Int 24030; Str (u "Jonquiere"); Str (u " 101 "); Str (u "South");
                  Str (u "7"); Int 1; Int 1; Int 9; Int 150] ] |}.

(** Polygons on an integer grid, left as they are by the reprojection. *)
Definition polygon := list (Z * Z).

Definition same_polygon (g : polygon) : polygon := g.

(** Three features: one of the district with an aggregate, one of the
    district without, one of another district. *)
Definition boundaries : GeoFrame polygon :=
  {| gcolumns := [u "FED_NUM"];
     features :=
       [ {| PD_NUM := 100; attrs := [(u "FED_NUM", VInt 24030)];
            geom := [(0, 0); (1, 0); (1, 1)] |};
         {| PD_NUM := 102; attrs := [(u "FED_NUM", VInt 24030)];
            geom := [(1, 0); (2, 0); (2, 1)] |};
         {| PD_NUM := 101; attrs := [(u "FED_NUM", VInt 24031)];
            geom := [(2, 0); (3, 0); (3, 1)] |} ] |}.


Definition sample_world : world polygon :=
  {| files := [(u "results.csv", CsvFile run_table);
               (u "polling_divisions.geojson", GeoJSON boundaries)];
     log := [] |}.


Definition no_summary : Summary :=
  {| district_number := NaN; district_name := NaN; summary_candidates := [];
     results_file := []; simple_file := [] |}.

(** The outcome of [process_election_data] in the sample world. *)
Definition sample_summary : Summary :=
  Eval vm_compute in
    match fst (process_election_data same_polygon (u "results.csv")
                 (u "polling_divisions.geojson") None sample_world) with
    | Ok s => s
    | Raise _ => no_summary
    end.

Definition sample_world_after : world polygon :=
  Eval vm_compute in
    snd (process_election_data same_polygon (u "results.csv")
           (u "polling_divisions.geojson") None sample_world).


(** ** Vocabulary and samples of the further properties *)

(** Whether [detect_columns] maps the field [key] for the headers [cols]. *)
Definition is_mapped (cols : list pystr) (key : pystr) : bool :=
  match dict_get key (standard (fst (detect_columns cols))) with
  | Some _ => true
  | None => false
  end.

(** Whether a fragment of the entry [kp] of [patterns] occurs in a header. *)
Definition pattern_found (cols : list pystr) (kp : pystr * list pystr) : bool :=
  match first_match cols (snd kp) with
  | Some _ => true
  | None => false
  end.



(** A number of a row: any value but text. *)
Definition is_number (v : value) : bool :=
  match v with
  | VStr _ => false
  | _ => true
  end.

(** A value that compares as NaN. *)
Definition nan_value (v : value) : bool :=
  match v with
  | VNaN => true
  | VFloat f => is_nan f
  | _ => false
  end.

(** The features of an inner join on ['PD_NUM'] when no column name occurs
    on both sides: each feature with the row that has its key. *)
Definition joined {geometry : Type} (gdf : GeoFrame geometry) (res : ResultFrame)
  : list (Feature geometry) :=
  flat_map (fun f =>
              map (fun kr => {| PD_NUM := PD_NUM f;
                                attrs := attrs f ++ snd kr;
                                geom := geom f |})
                  (filter (fun kr => fst kr =? PD_NUM f) (rrows res)))
           (features gdf).


(** Line 195: [sys.argv[2] if len(sys.argv) > 2 else
    'polling_divisions.geojson'], for [rest = sys.argv[2:]]. *)
Definition geojson_argument (rest : list pystr) : pystr :=
  match rest with
  | g :: _ => g
  | [] => u "polling_divisions.geojson"
  end.

(** Line 196: [sys.argv[3] if len(sys.argv) > 3 else None]. *)
Definition prefix_argument (rest : list pystr) : option pystr :=
  match rest with
  | _ :: p :: _ => Some p
  | _ => None
  end.


(** The values a run of [process_election_data] goes through when every step
    returns. *)
Record Run (geometry : Type) := {
  run_csv : DataFrame;
  run_gdf : GeoFrame geometry;
  run_district_num_col : pystr;
  run_district_name_col : pystr;
  run_pd_num_col : pystr;
  run_pd_name_col : pystr;
  run_rejected_col : pystr;
  run_total_votes_col : pystr;
  run_electors_col : pystr;
  run_district_number : cell;
  run_district_name : cell;
  run_fed_num : list value;
  run_results : ResultFrame;
  run_merged : GeoFrame geometry;
  run_full : GeoFrame geometry;
  run_simple : GeoFrame geometry
}.
Arguments run_csv {geometry} r.
Arguments run_gdf {geometry} r.
Arguments run_district_num_col {geometry} r.
Arguments run_district_name_col {geometry} r.
Arguments run_pd_num_col {geometry} r.
Arguments run_pd_name_col {geometry} r.
Arguments run_rejected_col {geometry} r.
Arguments run_total_votes_col {geometry} r.
Arguments run_electors_col {geometry} r.
Arguments run_district_number {geometry} r.
Arguments run_district_name {geometry} r.
Arguments run_fed_num {geometry} r.
Arguments run_results {geometry} r.
Arguments run_merged {geometry} r.
Arguments run_full {geometry} r.
Arguments run_simple {geometry} r.

Definition run_mapping {geometry} (r : Run geometry) : ColumnMapping :=
  fst (detect_columns (columns (run_csv r))).

Definition run_numeric_cols {geometry} (r : Run geometry) : list pystr :=
  candidates (run_mapping r)
  ++ [run_rejected_col r; run_total_votes_col r; run_electors_col r].

Definition run_district {geometry} (r : Run geometry) : GeoFrame geometry :=
  gf_mask (run_gdf r)
          (map (fun v => value_eq_cell v (run_district_number r)) (run_fed_num r)).

(** Every step of [process_election_data] returns, with the values of [r]. *)
Definition run_steps {geometry} (reproject : geometry -> geometry)
    (csv geo : pystr) (w : world geometry) (r : Run geometry) : Prop :=
  dict_get csv (files w) = Some (CsvFile (run_csv r)) /\
  dict_getitem (standard (run_mapping r)) (u "district_number")
  = Ok (run_district_num_col r) /\
  dict_getitem (standard (run_mapping r)) (u "district_name")
  = Ok (run_district_name_col r) /\
  dict_getitem (standard (run_mapping r)) (u "pd_number") = Ok (run_pd_num_col r) /\
  dict_getitem (standard (run_mapping r)) (u "pd_name") = Ok (run_pd_name_col r) /\
  dict_getitem (standard (run_mapping r)) (u "rejected") = Ok (run_rejected_col r) /\
  dict_getitem (standard (run_mapping r)) (u "total_votes")
  = Ok (run_total_votes_col r) /\
  dict_getitem (standard (run_mapping r)) (u "electors") = Ok (run_electors_col r) /\
  rbind (df_getitem (run_csv r) (run_district_num_col r)) iloc0
  = Ok (run_district_number r) /\
  rbind (df_getitem (run_csv r) (run_district_name_col r)) iloc0
  = Ok (run_district_name r) /\
  dict_get geo (files w) = Some (GeoJSON (run_gdf r)) /\
  gf_getitem (run_gdf r) (u "FED_NUM") = Ok (run_fed_num r) /\
  aggregate (run_csv r) (run_pd_num_col r) (run_pd_name_col r)
            (candidates (run_mapping r)) (run_rejected_col r)
            (run_total_votes_col r) (run_electors_col r) = Ok (run_results r) /\
  merge_inner (run_district r) (run_results r) = Ok (run_merged r) /\
  to_crs reproject (run_merged r) = Ok (run_full r) /\
  gf_select (run_full r)
            (simple_columns (candidates (run_mapping r)) (run_numeric_cols r))
  = Ok (run_simple r).

(** What the run returns. *)
Definition run_summary {geometry} (csv : pystr) (prefix : option pystr)
    (r : Run geometry) : Summary :=
  {| district_number := run_district_number r;
     district_name := run_district_name r;
     summary_candidates := candidates (run_mapping r);
     results_file := output_name csv prefix ++ u "_election_results.geojson";
     simple_file := output_name csv prefix ++ u "_election_simple.geojson" |}.

(** What the run prints. *)
Definition run_log {geometry} (csv geo : pystr) (prefix : option pystr)
    (r : Run geometry) : list event :=
  [Reading_csv csv] ++ snd (detect_columns (columns (run_csv r)))
  ++ [Detected_columns (run_district_num_col r) (run_district_name_col r)
        (run_pd_num_col r) (run_pd_name_col r) (candidates (run_mapping r))
        (run_rejected_col r) (run_total_votes_col r) (run_electors_col r);
      Processing_district (run_district_name r) (run_district_number r);
      Reading_geojson geo;
      Total_features (List.length (features (run_gdf r)));
      Unique_fed_num (unique_values [] (run_fed_num r));
      Features_for_district (run_district_number r)
        (List.length (features (run_district r)));
      Divisions_in_csv (nunique (map fst (rrows (run_results r))));
      Divisions_in_geojson (nunique (map PD_NUM (features (run_district r))));
      Merged_features (List.length (features (run_merged r)));
      Processing_complete
        (output_name csv prefix ++ u "_election_results.geojson")
        (output_name csv prefix ++ u "_election_simple.geojson");
      Sample_names
        (map (fun f => (PD_NUM f, vrow_get (u "PD_NAME") (attrs f)))
             (firstn 10 (features (run_full r))))].

(** The files and the log the run leaves. *)
Definition run_world {geometry} (csv geo : pystr) (prefix : option pystr)
    (w : world geometry) (r : Run geometry) : world geometry :=
  {| files :=
       dict_set (output_name csv prefix ++ u "_election_simple.geojson")
                (GeoJSON (run_simple r))
                (dict_set (output_name csv prefix ++ u "_election_results.geojson")
                          (GeoJSON (run_full r)) (files w));
     log := log w ++ run_log csv geo prefix r |}.

(** A row whose first candidate has no number. *)
Definition nan_first_row : vrow :=
  [(u "A", VFloat S754_nan); (u "B", VInt 15); (u "C", VInt 3)].

(** A results file with its header line and no row. *)
Definition header_only_table : DataFrame :=
  {| columns := run_headers; rows := [] |}.

Definition header_only_world : world polygon :=
  {| files := [(u "results.csv", CsvFile header_only_table)]; log := [] |}.

(** The aggregate of division 100 alone. *)
Definition division_frame : ResultFrame :=
  {| rcolumns := [u "Alice"; u "Total Votes"];
     rrows := [(100, [(u "Alice", VInt 5); (u "Total Votes", VInt 7)])] |}.

(** Its join with the sample boundary file. *)
Definition division_join : GeoFrame polygon :=
  Eval vm_compute in
    match merge_inner boundaries division_frame with
    | Ok g => g
    | Raise _ => boundaries
    end.




(** * Properties *)

(** ** Strings and dictionaries *)

Lemma str_eqb_eq (a b : pystr) : str_eqb a b = true <-> a = b.
Proof.
  revert b; induction a as [|x a IH]; intros [|y b]; simpl;
    try (split; [discriminate | discriminate]); try tauto.
  rewrite andb_true_iff, N.eqb_eq, IH.
  split; [intros [-> ->]; reflexivity | intros H; inversion H; auto].
Qed.

Lemma str_eqb_refl (a : pystr) : str_eqb a a = true.
Proof. apply str_eqb_eq; reflexivity. Qed.

Lemma str_eqb_neq (a b : pystr) : str_eqb a b = false <-> a <> b.
Proof.
  rewrite <- str_eqb_eq. destruct (str_eqb a b); split; congruence.
Qed.

Lemma startswith_spec (p s : pystr) :
  startswith p s = true <-> exists t, s = p ++ t.
Proof.
  revert s; induction p as [|x p IH]; intros s; simpl.
  - split; [intros _; exists s; reflexivity | reflexivity].
  - destruct s as [|y s].
    + split; [discriminate | intros [t Ht]; discriminate].
    + rewrite andb_true_iff, N.eqb_eq, IH. split.
      * intros [-> [t ->]]. exists t; reflexivity.
      * intros [t Ht]. inversion Ht; subst. split; [reflexivity | exists t; reflexivity].
Qed.

Lemma str_in_spec (needle hay : pystr) :
  str_in needle hay = true <-> substring needle hay.
Proof.
  unfold substring. induction hay as [|c hay IH].
  - cbn [str_in]. rewrite orb_false_r, startswith_spec. split.
    + intros [t Ht]. exists [], t. exact Ht.
    + intros [[|b before] [after H]].
      * exists after. exact H.
      * discriminate.
  - cbn [str_in]. rewrite orb_true_iff, startswith_spec, IH. split.
    + intros [[t Ht] | [before [after H]]].
      * exists [], t. exact Ht.
      * exists (c :: before), after. rewrite H. reflexivity.
    + intros [[|b before] [after H]].
      * left. exists after. exact H.
      * right. inversion H; subst. exists before, after. reflexivity.
Qed.

Lemma list_in_spec (x : pystr) (l : list pystr) : list_in x l = true <-> In x l.
Proof.
  unfold list_in. rewrite existsb_exists. split.
  - intros [y [Hy E]]. apply str_eqb_eq in E. subst. exact Hy.
  - intros H. exists x. split; [exact H | apply str_eqb_refl].
Qed.

Lemma dict_get_set_same {V} (k : pystr) (v : V) (d : dict V) :
  dict_get k (dict_set k v d) = Some v.
Proof.
  induction d as [|[k' v'] d IH]; simpl.
  - rewrite str_eqb_refl. reflexivity.
  - destruct (str_eqb k k') eqn:E; simpl; rewrite E; auto.
Qed.

Lemma dict_get_set_other {V} (k k0 : pystr) (v : V) (d : dict V) :
  k0 <> k -> dict_get k0 (dict_set k v d) = dict_get k0 d.
Proof.
  intros Hne. induction d as [|[k' v'] d IH]; simpl.
  - apply str_eqb_neq in Hne. rewrite Hne. reflexivity.
  - destruct (str_eqb k k') eqn:E; simpl.
    + apply str_eqb_eq in E. subst k'.
      apply str_eqb_neq in Hne. rewrite Hne. reflexivity.
    + destruct (str_eqb k0 k'); auto.
Qed.

Lemma dict_keys_set {V} (k : pystr) (v : V) (d : dict V) :
  dict_keys (dict_set k v d) =
  if list_in k (dict_keys d) then dict_keys d else dict_keys d ++ [k].
Proof.
  unfold dict_keys, list_in. induction d as [|[k' v'] d IH]; simpl.
  - reflexivity.
  - destruct (str_eqb k k') eqn:E; simpl.
    + reflexivity.
    + rewrite IH. destruct (existsb (str_eqb k) (map fst d)); reflexivity.
Qed.

Lemma dict_set_NoDup {V} (k : pystr) (v : V) (d : dict V) :
  NoDup (dict_keys d) -> NoDup (dict_keys (dict_set k v d)).
Proof.
  intros H. rewrite dict_keys_set.
  destruct (list_in k (dict_keys d)) eqn:E; [exact H|].
  apply NoDup_app; [exact H | constructor; [intros [] | constructor] |].
  intros a Ha [<- | []].
  apply list_in_spec in Ha. congruence.
Qed.

Lemma dict_get_In {V} (k : pystr) (v : V) (d : dict V) :
  dict_get k d = Some v -> In (k, v) d.
Proof.
  induction d as [|[k' v'] d IH]; simpl; [discriminate|].
  destruct (str_eqb k k') eqn:E.
  - apply str_eqb_eq in E. subst. intros H; inversion H; auto.
  - auto.
Qed.

Lemma dict_In_get {V} (k : pystr) (v : V) (d : dict V) :
  NoDup (dict_keys d) -> In (k, v) d -> dict_get k d = Some v.
Proof.
  unfold dict_keys. induction d as [|[k' v'] d IH]; simpl; [tauto|].
  intros Hnd [H | H].
  - inversion H; subst. rewrite str_eqb_refl. reflexivity.
  - inversion Hnd; subst.
    destruct (str_eqb k k') eqn:E.
    + apply str_eqb_eq in E. subst k'.
      exfalso. apply H2. change k with (fst (k, v)). apply in_map. exact H.
    + auto.
Qed.

(** ** [detect_columns]: the standard fields *)

Lemma filter_nil_iff {A} (f : A -> bool) (l : list A) :
  filter f l = [] <-> forall x, In x l -> f x = false.
Proof.
  induction l as [|a l IH]; simpl; [tauto|].
  destruct (f a) eqn:E; split.
  - discriminate.
  - intros H. specialize (H a (or_introl eq_refl)). congruence.
  - intros H x [<- | Hx]; [exact E | apply IH; auto].
  - intros H. apply IH. auto.
Qed.

Lemma filter_cons_inv {A} (f : A -> bool) (l : list A) (x : A) (t : list A) :
  filter f l = x :: t ->
  exists before after,
    l = before ++ x :: after /\ f x = true /\
    (forall y, In y before -> f y = false).
Proof.
  induction l as [|a l IH]; simpl; [discriminate|].
  destruct (f a) eqn:E.
  - intros H; inversion H; subst. exists [], l. simpl. tauto.
  - intros H. destruct (IH H) as [b [af [-> [Hx Hb]]]].
    exists (a :: b), af. simpl. repeat split; auto.
    intros y [<- | Hy]; auto.
Qed.

Lemma first_match_Some (cols pats : list pystr) (h : pystr) :
  first_match cols pats = Some h -> resolves cols pats h.
Proof.
  induction pats as [|p pats IH]; simpl; [discriminate|].
  destruct (filter (str_in p) cols) as [|c t] eqn:E.
  - intros H. destruct (IH H) as (e & pt & l & b & a & -> & He & Hc & Hs & Hb).
    exists (p :: e), pt, l, b, a.
    split; [reflexivity|]. split; [|split; [exact Hc | split; [exact Hs | exact Hb]]].
    intros q c' [<- | Hq] Hc'.
    + rewrite <- str_in_spec.
      rewrite (proj1 (filter_nil_iff _ _) E c' Hc'). discriminate.
    + apply He; auto.
  - intros H; inversion H; subst.
    destruct (filter_cons_inv _ _ _ _ E) as (b & a & -> & Hx & Hb).
    exists [], p, pats, b, a.
    split; [reflexivity|]. split; [intros q c' []|].
    split; [reflexivity|]. split; [apply str_in_spec; exact Hx|].
    intros c' Hc'. rewrite <- str_in_spec. rewrite (Hb c' Hc'). discriminate.
Qed.

Lemma first_match_None (cols pats : list pystr) :
  first_match cols pats = None <-> unmatched cols pats.
Proof.
  unfold unmatched. induction pats as [|p pats IH]; simpl.
  - split; [intros _ q c [] | reflexivity].
  - destruct (filter (str_in p) cols) as [|c t] eqn:E.
    + rewrite IH. split.
      * intros H q c [<- | Hq] Hc; [|apply H; auto].
        rewrite <- str_in_spec.
        rewrite (proj1 (filter_nil_iff _ _) E c Hc). discriminate.
      * intros H q c Hq Hc. apply H; auto.
    + split; [discriminate|]. intros H. exfalso.
      destruct (filter_cons_inv _ _ _ _ E) as (b & a & -> & Hx & _).
      apply (H p c); [left; reflexivity | apply in_elt | apply str_in_spec; exact Hx].
Qed.

Lemma resolves_unmatched (cols pats : list pystr) (h : pystr) :
  resolves cols pats h -> ~ unmatched cols pats.
Proof.
  intros (e & pt & l & b & a & -> & _ & -> & Hs & _) H.
  apply (H pt h); [apply in_elt | apply in_elt | exact Hs].
Qed.

(** What the loop over the items leaves in [detected] and in the log. *)
Lemma find_standard_get (cols : list pystr) (items : dict (list pystr)) :
  NoDup (dict_keys items) ->
  forall detected log key,
    dict_get key (fst (find_standard cols items detected log)) =
    match dict_get key items with
    | Some pats =>
        match first_match cols pats with
        | Some h => Some h
        | None => dict_get key detected
        end
    | None => dict_get key detected
    end.
Proof.
  unfold dict_keys.
  induction items as [|[k pats] items IH]; intros Hnd detected log key; simpl.
  - reflexivity.
  - inversion Hnd as [|? ? Hnotin Hnd']; subst.
    destruct (str_eqb key k) eqn:E.
    + apply str_eqb_eq in E. subst k.
      assert (Hnone : dict_get key items = None).
      { destruct (dict_get key items) eqn:G; [|reflexivity].
        exfalso. apply Hnotin. apply dict_get_In in G.
        change key with (fst (key, l)). apply in_map. exact G. }
      destruct (first_match cols pats) as [h|]; rewrite IH by assumption;
        rewrite Hnone; [apply dict_get_set_same | reflexivity].
    + destruct (first_match cols pats) as [h|]; rewrite IH by assumption;
        [|reflexivity].
      rewrite dict_get_set_other by (apply str_eqb_neq; exact E).
      reflexivity.
Qed.

Lemma find_standard_log (cols : list pystr) (items : dict (list pystr)) :
  forall detected log,
    snd (find_standard cols items detected log) =
    log ++ map Warning_no_column
               (map fst (filter (fun kp => match first_match cols (snd kp) with
                                           | Some _ => false
                                           | None => true
                                           end) items)).
Proof.
  induction items as [|[k pats] items IH]; intros detected log; simpl.
  - rewrite app_nil_r. reflexivity.
  - destruct (first_match cols pats); rewrite IH; simpl.
    + reflexivity.
    + rewrite <- app_assoc. reflexivity.
Qed.

Lemma find_standard_NoDup (cols : list pystr) (items : dict (list pystr)) :
  forall detected log,
    NoDup (dict_keys detected) ->
    NoDup (dict_keys (fst (find_standard cols items detected log))).
Proof.
  induction items as [|[k pats] items IH]; intros detected log H; simpl.
  - exact H.
  - destruct (first_match cols pats); apply IH; auto using dict_set_NoDup.
Qed.

Lemma patterns_NoDup : NoDup (dict_keys patterns).
Proof.
  repeat (constructor; [vm_compute; intuition discriminate|]). constructor.
Qed.

Lemma patterns_get (key : pystr) (pats : list pystr) :
  In (key, pats) patterns -> dict_get key patterns = Some pats.
Proof. intros H. apply dict_In_get; [apply patterns_NoDup | exact H]. Qed.

Lemma detect_columns_standard (cols : list pystr) (key : pystr) :
  dict_get key (standard (fst (detect_columns cols))) =
  match dict_get key patterns with
  | Some pats => first_match cols pats
  | None => None
  end.
Proof.
  unfold detect_columns.
  pose proof (find_standard_get cols patterns patterns_NoDup [] [] key) as H.
  destruct (find_standard cols patterns [] []) as [detected log].
  cbn [fst standard]. cbn [fst] in H. rewrite H.
  destruct (dict_get key patterns) as [pats|]; [|reflexivity].
  destruct (first_match cols pats); reflexivity.
Qed.

Lemma detect_columns_log (cols : list pystr) :
  snd (detect_columns cols) =
  map Warning_no_column
      (map fst (filter (fun kp => match first_match cols (snd kp) with
                                  | Some _ => false
                                  | None => true
                                  end) patterns)).
Proof.
  unfold detect_columns.
  pose proof (find_standard_log cols patterns [] []) as H.
  destruct (find_standard cols patterns [] []) as [detected log].
  cbn [snd] in *. exact H.
Qed.

Lemma detect_columns_NoDup (cols : list pystr) :
  NoDup (dict_keys (standard (fst (detect_columns cols)))).
Proof.
  unfold detect_columns.
  pose proof (find_standard_NoDup cols patterns [] [] (NoDup_nil _)) as H.
  destruct (find_standard cols patterns [] []) as [detected log]. exact H.
Qed.

Lemma filter_first {A} (f : A -> bool) (before after : list A) (x : A) :
  (forall y, In y before -> f y = false) -> f x = true ->
  filter f (before ++ x :: after) = x :: filter f after.
Proof.
  intros Hb Hx. induction before as [|b before IH]; simpl.
  - rewrite Hx. reflexivity.
  - rewrite (Hb b (or_introl eq_refl)). apply IH. intros y Hy. apply Hb. right. exact Hy.
Qed.

Lemma resolves_first_match (cols pats : list pystr) (h : pystr) :
  resolves cols pats h -> first_match cols pats = Some h.
Proof.
  revert h. induction pats as [|p pats IH]; intros h.
  - intros (e & pt & l & b & a & Hp & _). destruct e; discriminate.
  - intros (e & pt & l & b & a & Hp & He & Hc & Hs & Hb). simpl.
    destruct e as [|p' e]; simpl in Hp; injection Hp as Hp1 Hp2.
    + subst pt l cols.
      rewrite filter_first; [reflexivity | | apply str_in_spec; exact Hs].
      intros y Hy. specialize (Hb y Hy). rewrite <- str_in_spec in Hb.
      destruct (str_in p y); congruence.
    + subst p' pats cols.
      assert (E : filter (str_in p) (b ++ h :: a) = []).
      { apply filter_nil_iff. intros c Hc.
        specialize (He p c (or_introl eq_refl) Hc). rewrite <- str_in_spec in He.
        destruct (str_in p c); congruence. }
      rewrite E. apply IH. exists e, pt, l, b, a.
      split; [reflexivity|]. split; [|split; [reflexivity | split; [exact Hs | exact Hb]]].
      intros q c Hq Hc. apply He; [right; exact Hq | exact Hc].
Qed.

(** The accesses of lines 29-36 fail on the first field that was left out. *)
Lemma process_unmapped_field (geometry : Type) (reproject : geometry -> geometry)
    (csv_filename geojson_filename : pystr) (output_prefix : option pystr)
    (w : world geometry) (df : DataFrame) (key : pystr) :
  dict_get csv_filename (files w) = Some (CsvFile df) ->
  In key (dict_keys patterns) ->
  dict_get key (standard (fst (detect_columns (columns df)))) = None ->
  exists k w',
    process_election_data reproject csv_filename geojson_filename
                          output_prefix w = (Raise (KeyError k), w') /\
    dict_get k (standard (fst (detect_columns (columns df)))) = None /\
    files w' = files w.
Proof.
  intros Hfile Hkey Hnone.
  unfold process_election_data, bind, print, print_all, lift, read_csv.
  cbn [files log]. rewrite Hfile.
  destruct (detect_columns (columns df)) as [mapping warnings]. cbn [fst] in *.
  unfold dict_getitem.
  destruct (dict_get (u "district_number") (standard mapping)) eqn:E1;
    [|eexists; eexists; split; [reflexivity | split; [exact E1 | reflexivity]]].
  destruct (dict_get (u "district_name") (standard mapping)) eqn:E2;
    [|eexists; eexists; split; [reflexivity | split; [exact E2 | reflexivity]]].
  destruct (dict_get (u "pd_number") (standard mapping)) eqn:E3;
    [|eexists; eexists; split; [reflexivity | split; [exact E3 | reflexivity]]].
  destruct (dict_get (u "pd_name") (standard mapping)) eqn:E4;
    [|eexists; eexists; split; [reflexivity | split; [exact E4 | reflexivity]]].
  destruct (dict_get (u "rejected") (standard mapping)) eqn:E5;
    [|eexists; eexists; split; [reflexivity | split; [exact E5 | reflexivity]]].
  destruct (dict_get (u "total_votes") (standard mapping)) eqn:E6;
    [|eexists; eexists; split; [reflexivity | split; [exact E6 | reflexivity]]].
  destruct (dict_get (u "electors") (standard mapping)) eqn:E7;
    [|eexists; eexists; split; [reflexivity | split; [exact E7 | reflexivity]]].
  exfalso.
  cbv [dict_keys patterns map fst] in Hkey.
  destruct Hkey as [<- | [<- | [<- | [<- | [<- | [<- | [<- | []]]]]]]]; congruence.
Qed.

(** C1.  Every standard field is mapped to the first header that contains
    the first of its label fragments found in any header.  When no fragment
    occurs in any header the field is left out of the mapping, the warning
    for it is printed, reading the field raises [KeyError] with its name, and
    [process_election_data] stops on such a [KeyError] before it writes a
    file. *)
Theorem detect_columns_maps_standard_fields :
  forall (cols : list pystr) (key : pystr) (pats : list pystr),
    In (key, pats) patterns ->
    let mapping := fst (detect_columns cols) in
    let warnings := snd (detect_columns cols) in
    (forall h, dict_get key (standard mapping) = Some h <-> resolves cols pats h) /\
    (In (Warning_no_column key) warnings <-> unmatched cols pats) /\
    (unmatched cols pats ->
     dict_get key (standard mapping) = None /\
     dict_getitem (standard mapping) key = Raise (KeyError key) /\
     forall (geometry : Type) (reproject : geometry -> geometry)
            (csv_filename geojson_filename : pystr)
            (output_prefix : option pystr) (w : world geometry) (df : DataFrame),
       dict_get csv_filename (files w) = Some (CsvFile df) ->
       columns df = cols ->
       exists k w',
         process_election_data reproject csv_filename geojson_filename
                               output_prefix w = (Raise (KeyError k), w') /\
         dict_get k (standard mapping) = None /\
         files w' = files w).
Proof.
  intros cols key pats Hin mapping warnings.
  assert (Hget : dict_get key (standard mapping) = first_match cols pats).
  { unfold mapping. rewrite detect_columns_standard.
    rewrite (patterns_get _ _ Hin). reflexivity. }
  split; [|split].
  - intros h. rewrite Hget. split.
    + apply first_match_Some.
    + apply resolves_first_match.
  - unfold warnings. rewrite detect_columns_log. rewrite <- first_match_None.
    rewrite in_map_iff. split.
    + intros [k [Hk Hf]]. inversion Hk; subst k. clear Hk.
      apply in_map_iff in Hf. destruct Hf as [[k' pats'] [Hk' Hf]].
      simpl in Hk'. subst k'. apply filter_In in Hf. destruct Hf as [Hf Hm].
      cbn [snd] in Hm.
      assert (pats' = pats).
      { pose proof (patterns_get _ _ Hf) as G1.
        pose proof (patterns_get _ _ Hin) as G2. congruence. }
      subst pats'. destruct (first_match cols pats); [discriminate | reflexivity].
    + intros Hnone. exists key. split; [reflexivity|].
      apply in_map_iff. exists (key, pats). split; [reflexivity|].
      apply filter_In. split; [exact Hin|]. cbn [snd]. rewrite Hnone. reflexivity.
  - intros Hun. apply first_match_None in Hun.
    assert (Hn : dict_get key (standard mapping) = None) by congruence.
    split; [exact Hn|]. split.
    + unfold dict_getitem. rewrite Hn. reflexivity.
    + intros geometry reproject csv geo prefix w df Hfile Hcols. subst cols.
      apply (process_unmapped_field geometry reproject csv geo prefix w df key Hfile);
        [|exact Hn].
      unfold dict_keys. change key with (fst (key, pats)). apply in_map. exact Hin.
Qed.

Lemma detect_columns_maps_standard_fields_witness :
  In (u "electors", [u "Electors"; u "Électeurs"]) patterns /\
  (forall h,
     dict_get (u "electors")
       (standard (fst (detect_columns [u "Bob"; u "Electors/Électeurs"]))) = Some h
     <-> resolves [u "Bob"; u "Electors/Électeurs"] [u "Electors"; u "Électeurs"] h).
Proof.
  assert (H : In (u "electors", [u "Electors"; u "Électeurs"]) patterns).
  { do 6 right. left. reflexivity. }
  split; [exact H|].
  exact (proj1 (detect_columns_maps_standard_fields
                  [u "Bob"; u "Electors/Électeurs"] (u "electors")
                  [u "Electors"; u "Électeurs"] H)).
Defined.

(** ** [detect_columns]: the candidate columns *)

Lemma dict_values_mapped {V} (d : dict V) (v : V) :
  NoDup (dict_keys d) ->
  In v (dict_values d) <-> exists key, dict_get key d = Some v.
Proof.
  intros Hnd. unfold dict_values. rewrite in_map_iff. split.
  - intros [[k v'] [E Hin]]. simpl in E. subst v'.
    exists k. apply dict_In_get; assumption.
  - intros [k Hk]. exists (k, v). split; [reflexivity | apply dict_get_In; exact Hk].
Qed.


(** ** [filter_combined_rows] *)

Lemma combine_map_self {A B} (f : A -> B) (l : list A) :
  combine l (map f l) = map (fun x => (x, f x)) l.
Proof. induction l; simpl; congruence. Qed.

Lemma mask_filter {A} (f : A -> bool) (l : list A) :
  map fst (filter snd (combine l (map f l))) = filter f l.
Proof.
  rewrite combine_map_self.
  induction l as [|a l IH]; simpl; [reflexivity|].
  destruct (f a); simpl; congruence.
Qed.

Lemma filter_combined_rows_eq (df : DataFrame) (col : pystr) :
  filter_combined_rows df col =
  if list_in col (columns df)
  then Ok {| columns := columns df;
             rows := filter (not_combined col) (rows df) |}
  else Raise (KeyError col).
Proof.
  unfold filter_combined_rows, df_getitem.
  destruct (list_in col (columns df)); [|reflexivity].
  unfold rbind, df_mask. rewrite map_map.
  rewrite (mask_filter (not_combined col)). reflexivity.
Qed.

Lemma not_combined_spec (col : pystr) (r : row) :
  not_combined col r = true <->
  ~ substring (u "Combined") (astype_str (row_get col r)).
Proof.
  unfold not_combined, str_contains. rewrite negb_true_iff, <- str_in_spec.
  destruct (str_in (u "Combined") (astype_str (row_get col r))); split; congruence.
Qed.

Lemma filter_idem {A} (f : A -> bool) (l : list A) :
  filter f (filter f l) = filter f l.
Proof.
  induction l as [|a l IH]; simpl; [reflexivity|].
  destruct (f a) eqn:E; simpl; [rewrite E|]; congruence.
Qed.

(** C3.  On a column of the table, [filter_combined_rows] keeps, in order,
    exactly the rows whose cell in that column does not contain 'Combined'
    (the match is case sensitive); aggregation runs on the kept rows only,
    so that deleting the dropped rows beforehand changes nothing; and in the
    sample table the rows ("100","Combined"), ("100","5"), ("100","7") give
    division 100 the sum 12. *)
Theorem filter_combined_rows_drops_combined :
  forall (df : DataFrame) (col : pystr),
    In col (columns df) ->
    exists clean,
      filter_combined_rows df col = Ok clean /\
      columns clean = columns df /\
      (exists keep,
         rows clean = filter keep (rows df) /\
         forall r, keep r = true <->
                   ~ substring (u "Combined") (astype_str (row_get col r))) /\
      (forall r, In r (rows clean) ->
                 ~ substring (u "Combined") (astype_str (row_get col r))) /\
      (forall pd_num_col pd_name_col others rejected_col total_votes_col electors_col,
         aggregate df pd_num_col pd_name_col (col :: others)
                   rejected_col total_votes_col electors_col =
         aggregate clean pd_num_col pd_name_col (col :: others)
                   rejected_col total_votes_col electors_col) /\
      str_contains (u "Combined") (u "combined") = false /\
      exists res,
        sample_aggregate combined_table = Ok res /\
        column_of (u "Alice") res = [(100, VInt 12)].
Proof.
  intros df col Hcol. apply list_in_spec in Hcol.
  exists {| columns := columns df; rows := filter (not_combined col) (rows df) |}.
  assert (E : filter_combined_rows df col =
              Ok {| columns := columns df;
                    rows := filter (not_combined col) (rows df) |}).
  { rewrite filter_combined_rows_eq, Hcol. reflexivity. }
  split; [exact E|]. split; [reflexivity|]. split.
  { exists (not_combined col). split; [reflexivity | apply not_combined_spec]. }
  split.
  { cbn [rows]. intros r Hr. apply filter_In in Hr.
    apply not_combined_spec. apply Hr. }
  split.
  { intros. unfold aggregate. cbn [iloc0 rbind]. rewrite E.
    rewrite filter_combined_rows_eq. cbn [columns rows]. rewrite Hcol.
    rewrite filter_idem. reflexivity. }
  split; [vm_compute; reflexivity|].
  eexists. split; vm_compute; reflexivity.
Qed.

Lemma filter_combined_rows_drops_combined_witness :
  In (u "Alice") (columns combined_table) /\
  exists clean,
    filter_combined_rows combined_table (u "Alice") = Ok clean /\
    columns clean = columns combined_table.
Proof.
  assert (H : In (u "Alice") (columns combined_table)).
  { right. right. left. reflexivity. }
  split; [exact H|].
  destruct (filter_combined_rows_drops_combined combined_table (u "Alice") H)
    as [clean [E [C _]]].
  exists clean. split; [exact E | exact C].
Defined.

(** C10.  A row whose cell in the chosen column is missing is kept by
    [filter_combined_rows]: the kept rows are the rows of the table in order,
    less those whose cell, converted to text, contains 'Combined'; a missing
    cell converts to 'nan'.  In the sample table the row with the missing
    cell is coerced and summed with the others. *)
Theorem filter_combined_rows_keeps_missing :
  forall (df : DataFrame) (col : pystr),
    In col (columns df) ->
    exists clean keep,
      filter_combined_rows df col = Ok clean /\
      rows clean = filter keep (rows df) /\
      (forall r, row_get col r = NaN -> keep r = true) /\
      (forall r, keep r = false ->
                 substring (u "Combined") (astype_str (row_get col r))) /\
      (forall r, In r (rows df) -> row_get col r = NaN -> In r (rows clean)) /\
      exists res,
        sample_aggregate missing_table = Ok res /\
        column_of (u "Alice") res = [(100, VInt 3)] /\
        column_of (u "Bob") res = [(100, VInt 10)].
Proof.
  intros df col Hcol. apply list_in_spec in Hcol.
  exists {| columns := columns df; rows := filter (not_combined col) (rows df) |}.
  exists (not_combined col).
  assert (Hnan : forall r, row_get col r = NaN -> not_combined col r = true).
  { intros r Hr. unfold not_combined. rewrite Hr. vm_compute. reflexivity. }
  split; [rewrite filter_combined_rows_eq, Hcol; reflexivity|].
  split; [reflexivity|]. split; [exact Hnan|]. split.
  { intros r Hr. unfold not_combined in Hr. apply negb_false_iff in Hr.
    apply str_in_spec. exact Hr. }
  split.
  { intros r Hr Hn. cbn [rows]. apply filter_In. split; [exact Hr | apply Hnan, Hn]. }
  eexists. split; [vm_compute; reflexivity|]. split; vm_compute; reflexivity.
Qed.

Lemma filter_combined_rows_keeps_missing_witness :
  In (u "Alice") (columns missing_table) /\
  exists clean keep,
    filter_combined_rows missing_table (u "Alice") = Ok clean /\
    rows clean = filter keep (rows missing_table) /\
    (forall r, row_get (u "Alice") r = NaN -> keep r = true).
Proof.
  assert (H : In (u "Alice") (columns missing_table)).
  { right. right. left. reflexivity. }
  split; [exact H|].
  destruct (filter_combined_rows_keeps_missing missing_table (u "Alice") H)
    as [clean [keep [E [R [K _]]]]].
  exists clean, keep. split; [exact E|]. split; [exact R | exact K].
Defined.

(** ** Coercion of the polling-division id *)






















(** ** Grouping *)










Lemma dict_get_map {V} (g : pystr -> V) (cols : list pystr) (col : pystr) :
  In col cols -> dict_get col (map (fun c => (c, g c)) cols) = Some (g col).
Proof.
  induction cols as [|c cols IH]; simpl; [tauto|].
  intros H. destruct (str_eqb col c) eqn:E.
  - apply str_eqb_eq in E. subst. reflexivity.
  - destruct H as [-> | H]; [rewrite str_eqb_refl in E; discriminate | auto].
Qed.




Lemma dict_get_app_none {V} (k : pystr) (d1 d2 : dict V) :
  dict_get k d1 = None -> dict_get k (d1 ++ d2) = dict_get k d2.
Proof.
  induction d1 as [|[k' v] d1 IH]; simpl; [reflexivity|].
  destruct (str_eqb k k'); [discriminate | exact IH].
Qed.



(** ** Percentages *)

Lemma vrow_get_set_same (k : pystr) (v : value) (r : vrow) :
  vrow_get k (dict_set k v r) = v.
Proof. unfold vrow_get. rewrite dict_get_set_same. reflexivity. Qed.

Lemma vrow_get_set_other (k k0 : pystr) (v : value) (r : vrow) :
  k0 <> k -> vrow_get k0 (dict_set k v r) = vrow_get k0 r.
Proof. intros H. unfold vrow_get. rewrite dict_get_set_other by exact H. reflexivity. Qed.

Lemma rf_setitem_rows (res : ResultFrame) (col : pystr) (f : Z * vrow -> value) :
  rrows (rf_setitem res col (map f (rrows res))) =
  map (fun kr => (fst kr, dict_set col (f kr) (snd kr))) (rrows res).
Proof.
  unfold rf_setitem. cbn [rrows]. rewrite combine_map_self, map_map. reflexivity.
Qed.

Lemma add_percentages_rows (cands : list pystr) (total : pystr) (res : ResultFrame) :
  rrows (add_percentages cands total res) =
  map (fun kr => (fst kr, fold_left (row_add_pct total) cands (snd kr))) (rrows res).
Proof.
  unfold add_percentages. revert res.
  induction cands as [|c cands IH]; intros res; cbn [fold_left].
  - induction (rrows res) as [|[k r] l IHl]; simpl; congruence.
  - rewrite IH. unfold add_pct.
    rewrite (rf_setitem_rows res (c ++ u "_pct")
               (fun kr => percentage (vrow_get c (snd kr)) (vrow_get total (snd kr)))).
    rewrite map_map. reflexivity.
Qed.

Lemma pct_fold_keep (total : pystr) (cands : list pystr) :
  forall r0 x,
    (forall c, In c cands -> x <> c ++ u "_pct") ->
    vrow_get x (fold_left (row_add_pct total) cands r0) = vrow_get x r0.
Proof.
  induction cands as [|c0 cands IH]; intros r0 x Hx; cbn [fold_left].
  - reflexivity.
  - rewrite IH by (intros c Hc; apply Hx; right; exact Hc).
    unfold row_add_pct. apply vrow_get_set_other. apply Hx. left. reflexivity.
Qed.

Lemma pct_fold_value (total : pystr) (cands : list pystr) (c : pystr) :
  forall r0,
    In c cands ->
    (forall c', In c' cands -> c <> c' ++ u "_pct" /\ total <> c' ++ u "_pct") ->
    vrow_get (c ++ u "_pct") (fold_left (row_add_pct total) cands r0) =
    percentage (vrow_get c r0) (vrow_get total r0).
Proof.
  induction cands as [|c0 cands IH]; intros r0 Hc Hfresh; [destruct Hc|].
  cbn [fold_left].
  assert (Hkeep : forall x, x <> c0 ++ u "_pct" ->
                            vrow_get x (row_add_pct total r0 c0) = vrow_get x r0).
  { intros x Hx. unfold row_add_pct. apply vrow_get_set_other. exact Hx. }
  destruct (list_in c cands) eqn:E.
  - apply list_in_spec in E. rewrite (IH _ E).
    + rewrite !Hkeep; [reflexivity | |]; apply (Hfresh c0); left; reflexivity.
    + intros c' Hc'. apply Hfresh. right. exact Hc'.
  - destruct Hc as [<- | Hc]; [|apply list_in_spec in Hc; congruence].
    rewrite pct_fold_keep.
    + unfold row_add_pct. apply vrow_get_set_same.
    + intros c' Hc' Heq. apply app_inv_tail in Heq. subst c'.
      apply list_in_spec in Hc'. congruence.
Qed.

(** A column the loop has written holds a floating-point number. *)
Lemma pct_fold_float (total : pystr) (cands : list pystr) (c : pystr) :
  forall r0,
    In c cands ->
    exists f, vrow_get (c ++ u "_pct") (fold_left (row_add_pct total) cands r0)
              = VFloat f.
Proof.
  induction cands as [|c0 cands IH]; intros r0 Hc; [destruct Hc|].
  cbn [fold_left].
  destruct (list_in c cands) eqn:E.
  - apply list_in_spec in E. apply IH. exact E.
  - destruct Hc as [<- | Hc]; [|apply list_in_spec in Hc; congruence].
    rewrite pct_fold_keep.
    + unfold row_add_pct. rewrite vrow_get_set_same. unfold percentage.
      eexists. reflexivity.
    + intros c' Hc' Heq. apply app_inv_tail in Heq. subst c'.
      apply list_in_spec in Hc'. congruence.
Qed.

(** A column that holds an integer after the loop was not written by it. *)
Lemma pct_fold_int (total : pystr) (cands : list pystr) (r0 : vrow)
    (x : pystr) (z : Z) :
  vrow_get x (fold_left (row_add_pct total) cands r0) = VInt z ->
  (forall c, In c cands -> x <> c ++ u "_pct") /\ vrow_get x r0 = VInt z.
Proof.
  intros H.
  assert (Hx : forall c, In c cands -> x <> c ++ u "_pct").
  { intros c Hc ->. destruct (pct_fold_float total cands c r0 Hc) as [f Hf].
    congruence. }
  split; [exact Hx|]. rewrite <- H. symmetry. apply pct_fold_keep. exact Hx.
Qed.



(** ** The leading candidate *)

Lemma fold_dict_set_keys {V} (g : pystr -> V) (l : list pystr) :
  forall d,
    dict_keys (fold_left (fun d c => dict_set c (g c) d) l d) =
    dict_keys d ++ first_occurrences (dict_keys d) l.
Proof.
  induction l as [|x l IH]; intros d; cbn [fold_left first_occurrences].
  - rewrite app_nil_r. reflexivity.
  - rewrite IH, dict_keys_set. destruct (list_in x (dict_keys d)); [reflexivity|].
    rewrite <- app_assoc. reflexivity.
Qed.

Lemma fold_dict_set_get {V} (g : pystr -> V) (l : list pystr) :
  forall d k,
    dict_get k (fold_left (fun d c => dict_set c (g c) d) l d) =
    if list_in k l then Some (g k) else dict_get k d.
Proof.
  induction l as [|x l IH]; intros d k; cbn [fold_left].
  - reflexivity.
  - rewrite IH. unfold list_in. cbn [existsb].
    fold (list_in k l). destruct (list_in k l); [rewrite orb_true_r; reflexivity|].
    rewrite orb_false_r. destruct (str_eqb k x) eqn:E.
    + apply str_eqb_eq in E. subst x. apply dict_get_set_same.
    + apply dict_get_set_other. apply str_eqb_neq. exact E.
Qed.

Lemma list_in_app (x : pystr) (l1 l2 : list pystr) :
  list_in x (l1 ++ l2) = list_in x l1 || list_in x l2.
Proof. unfold list_in. apply existsb_app. Qed.

Lemma first_occurrences_In (l : list pystr) :
  forall seen x,
    In x (first_occurrences seen l) <-> In x l /\ ~ In x seen.
Proof.
  induction l as [|a l IH]; intros seen x; cbn [first_occurrences].
  - simpl. tauto.
  - destruct (list_in a seen) eqn:E.
    + apply list_in_spec in E. rewrite IH. simpl. split.
      * tauto.
      * intros [[<- | H] Hn]; tauto.
    + assert (Hn : ~ In a seen) by (rewrite <- list_in_spec; congruence).
      simpl. rewrite IH, in_app_iff. simpl. split.
      * intros [<- | [H1 H2]]; tauto.
      * intros [[<- | H1] H2]; [tauto|].
        destruct (list_in x [a]) eqn:Ea.
        -- apply list_in_spec in Ea. destruct Ea as [-> | []]. tauto.
        -- right. split; [exact H1|]. intros [H | [<- | []]]; [tauto|].
           unfold list_in in Ea. cbn in Ea. rewrite str_eqb_refl in Ea. discriminate.
Qed.
















(** ** Percentages of the total *)

Ltac stdz :=
  change IntDef.Z.max with Z.max in *;
  change IntDef.Z.sub with Z.sub in *;
  change IntDef.Z.add with Z.add in *;
  change IntDef.Z.leb with Z.leb in *.

Ltac no_shift :=
  match goal with
  | |- context [shr ?r ?e ?n] =>
      let H := fresh in
      assert (H : n = 0) by (stdz; lia);
      rewrite H; clear H;
      cbn [shr shr_m loc_of_shr_record round_nearest_even Zdigits2]
  end.

Lemma digits2_pos_iter_xO (p n : positive) :
  digits2_pos (Pos.iter xO p n) = (digits2_pos p + n)%positive.
Proof.
  revert p. induction n using Pos.peano_ind; intros p.
  - simpl. lia.
  - rewrite Pos.iter_succ. simpl. rewrite IHn. lia.
Qed.

Lemma digits2_pos_lower (p : positive) :
  2 ^ (Z.pos (digits2_pos p) - 1) <= Z.pos p.
Proof.
  induction p as [p IH|p IH|]; cbn [digits2_pos].
  - rewrite Pos2Z.inj_succ.
    replace (Z.succ (Z.pos (digits2_pos p)) - 1)
      with (Z.succ (Z.pos (digits2_pos p) - 1)) by lia.
    rewrite Z.pow_succ_r by lia. lia.
  - rewrite Pos2Z.inj_succ.
    replace (Z.succ (Z.pos (digits2_pos p)) - 1)
      with (Z.succ (Z.pos (digits2_pos p) - 1)) by lia.
    rewrite Z.pow_succ_r by lia. lia.
  - simpl. lia.
Qed.

Lemma digits2_pos_le_53 (p : positive) :
  Z.pos p < 2 ^ 53 -> Z.pos (digits2_pos p) <= 53.
Proof.
  intros H. pose proof (digits2_pos_lower p) as L.
  destruct (Z_le_gt_dec (Z.pos (digits2_pos p)) 53) as [|G]; [assumption|].
  exfalso.
  assert (2 ^ 53 <= 2 ^ (Z.pos (digits2_pos p) - 1))
    by (apply Z.pow_le_mono_r; lia).
  lia.
Qed.

(** An integer below 2^53 in magnitude is a finite binary64 number. *)
Lemma binary_round_small (s : bool) (p : positive) :
  Z.pos p < 2 ^ 53 ->
  exists m e, binary_round prec emax s p 0 = S754_finite s m e.
Proof.
  intros H. pose proof (digits2_pos_le_53 p H) as Hd.
  unfold binary_round, shl_align, fexp, SpecFloat.emin, prec, emax.
  set (d := digits2_pos p) in *.
  assert (Ef : IntDef.Z.sub
                 (IntDef.Z.max (IntDef.Z.sub (IntDef.Z.add (Z.pos d) 0) 53)
                               (IntDef.Z.sub (IntDef.Z.sub 3 1024) 53)) 0
               = Z.pos d - 53) by (stdz; lia).
  rewrite Ef.
  destruct (Z.pos d - 53) as [|q|q] eqn:E; [ | lia | ].
  - unfold binary_round_aux, shr_fexp, fexp, SpecFloat.emin.
    cbn [Zdigits2 shr_record_of_loc]. fold d.
    no_shift. fold d. no_shift.
    eexists. eexists. reflexivity.
  - unfold binary_round_aux, shr_fexp, fexp, SpecFloat.emin.
    cbn [Zdigits2 shr_record_of_loc].
    assert (Ed : digits2_pos (PosDef.Pos.iter xO p q) = (d + q)%positive).
    { change (@PosDef.Pos.iter) with (@Pos.iter). apply digits2_pos_iter_xO. }
    rewrite Ed.
    no_shift. rewrite Ed. no_shift.
    match goal with
    | |- context [if ?c then _ else _] =>
        let H := fresh in
        assert (H : c = true) by (stdz; apply Z.leb_le; lia); rewrite H; clear H
    end.
    eexists. eexists. reflexivity.
Qed.

Lemma Z2F_small_finite (z : Z) :
  0 < Z.abs z < 2 ^ 53 -> exists m e, Z2F z = S754_finite (z <? 0) m e.
Proof.
  intros H. unfold Z2F, binary_normalize. destruct z as [|p|p].
  - simpl in H. lia.
  - apply binary_round_small. simpl in H. lia.
  - apply binary_round_small. simpl in H. lia.
Qed.





(** ** The join with the boundary features *)

Lemma filter_key_NoDup {A} (l : list (Z * A)) (k : Z) :
  NoDup (map fst l) ->
  (~ In k (map fst l) /\ filter (fun kr => fst kr =? k) l = []) \/
  (In k (map fst l) /\ exists a, filter (fun kr => fst kr =? k) l = [(k, a)]).
Proof.
  induction l as [|[k' a] l IH]; intros Hnd.
  - left. simpl. tauto.
  - cbn [map fst] in Hnd. inversion Hnd as [|? ? Hnot Hnd']; subst.
    cbn [filter fst map]. destruct (k' =? k) eqn:E.
    + apply Z.eqb_eq in E. subst k'. right. split; [left; reflexivity|].
      exists a. destruct (IH Hnd') as [[_ ->] | [Hin _]]; [reflexivity | contradiction].
    + apply Z.eqb_neq in E. destruct (IH Hnd') as [[Hn Hf] | [Hin [b Hf]]].
      * left. split; [simpl; tauto | exact Hf].
      * right. split; [right; exact Hin | exists b; exact Hf].
Qed.









Lemma output_names_differ (prefix : pystr) :
  prefix ++ u "_election_results.geojson" <> prefix ++ u "_election_simple.geojson".
Proof. intros H. apply app_inv_head in H. vm_compute in H. discriminate. Qed.

Lemma dict_get_files {V} (k1 k2 : pystr) (v1 v2 : V) (d : dict V) :
  k1 <> k2 ->
  dict_get k1 (dict_set k2 v2 (dict_set k1 v1 d)) = Some v1 /\
  dict_get k2 (dict_set k2 v2 (dict_set k1 v1 d)) = Some v2.
Proof.
  intros H. split.
  - rewrite dict_get_set_other by exact H. apply dict_get_set_same.
  - apply dict_get_set_same.
Qed.

Ltac step H :=
  match type of H with
  | context [match ?r with Ok _ => _ | Raise _ => _ end] =>
      match r with
      | Ok _ => fail 1
      | Raise _ => fail 1
      | _ => idtac
      end;
      let E := fresh "E" in
      destruct r eqn:E; cbv beta iota in H
  end.




(** ** Failures *)






(** * Further properties *)

(** ** Column detection: further properties *)

Lemma list_in_false (x : pystr) (l : list pystr) : list_in x l = false <-> ~ In x l.
Proof.
  rewrite <- list_in_spec. destruct (list_in x l); split; intros H.
  - discriminate.
  - exfalso. apply H. reflexivity.
  - discriminate.
  - reflexivity.
Qed.

Lemma detect_columns_candidates_eq (cols : list pystr) :
  candidates (fst (detect_columns cols)) =
  filter (fun col =>
            negb (list_in col (dict_values (standard (fst (detect_columns cols))))) &&
            negb (existsb (fun x => str_in x col) stop_fragments)) cols.
Proof.
  unfold detect_columns.
  destruct (find_standard cols patterns [] []) as [detected log].
  reflexivity.
Qed.

Lemma detect_columns_standard_In (cols : list pystr) (key h : pystr) :
  dict_get key (standard (fst (detect_columns cols))) = Some h -> In h cols.
Proof.
  intros H. rewrite detect_columns_standard in H.
  destruct (dict_get key patterns) as [pats|]; [|discriminate].
  apply first_match_Some in H.
  destruct H as (earlier & pattern & later & before & after & _ & _ & -> & _).
  apply in_or_app. right. left. reflexivity.
Qed.


(** X1.  What [detect_columns] returns names columns of the table.  Every header
    mapped to a standard field and every candidate column is one of the
    headers, so that [df[name]] cannot fail on it; no candidate column is
    mapped to a standard field; distinct headers give distinct candidates. *)
Theorem detect_columns_names_headers :
  forall (cols : list pystr),
    let mapping := fst (detect_columns cols) in
    (forall key h, dict_get key (standard mapping) = Some h -> In h cols) /\
    (forall c, In c (candidates mapping) ->
               In c cols /\
               forall key, dict_get key (standard mapping) <> Some c) /\
    (NoDup cols -> NoDup (candidates mapping)) /\
    (forall df name,
       columns df = cols ->
       (exists key, dict_get key (standard mapping) = Some name) \/
       In name (candidates mapping) ->
       df_getitem df name = Ok (map (row_get name) (rows df))).
Proof.
  intros cols mapping.
  assert (Hstd : forall key h, dict_get key (standard mapping) = Some h -> In h cols).
  { intros key h H. unfold mapping in H. rewrite detect_columns_standard in H.
    destruct (dict_get key patterns) as [pats|]; [|discriminate].
    apply first_match_Some in H.
    destruct H as (earlier & pattern & later & before & after & _ & _ & -> & _).
    apply in_or_app. right. left. reflexivity. }
  assert (Hcand : forall c, In c (candidates mapping) ->
                            In c cols /\
                            forall key, dict_get key (standard mapping) <> Some c).
  { intros c H. unfold mapping in H. rewrite detect_columns_candidates_eq in H.
    apply filter_In in H. destruct H as [Hin H]. split; [exact Hin|].
    apply andb_true_iff in H. destruct H as [H _].
    apply negb_true_iff in H. intros key Hk.
    assert (Hv : In c (dict_values (standard (fst (detect_columns cols))))).
    { apply dict_values_mapped; [apply detect_columns_NoDup|].
      exists key. exact Hk. }
    apply list_in_spec in Hv. congruence. }
  split; [exact Hstd|]. split; [exact Hcand|]. split.
  - intros Hnd. unfold mapping. rewrite detect_columns_candidates_eq.
    apply NoDup_filter. exact Hnd.
  - intros df name Hcols Hname. unfold df_getitem.
    assert (Hin : In name (columns df)).
    { rewrite Hcols. destruct Hname as [[key Hk]|Hc].
      - exact (Hstd key name Hk).
      - exact (proj1 (Hcand name Hc)). }
    apply list_in_spec in Hin. rewrite Hin. reflexivity.
Qed.

Lemma find_standard_keys (cols : list pystr) (items : dict (list pystr)) :
  forall detected log,
    NoDup (dict_keys items) ->
    (forall k, In k (dict_keys items) -> ~ In k (dict_keys detected)) ->
    dict_keys (fst (find_standard cols items detected log)) =
    dict_keys detected ++ map fst (filter (pattern_found cols) items).
Proof.
  induction items as [|[key pats] items IH]; intros detected log Hnd Hfresh.
  - cbn. rewrite app_nil_r. reflexivity.
  - cbn [find_standard filter]. unfold pattern_found at 1. cbn [snd].
    cbn [dict_keys map fst] in Hnd. apply NoDup_cons_iff in Hnd.
    destruct Hnd as [Hkey Hnd].
    destruct (first_match cols pats) as [col|].
    + rewrite IH.
      * rewrite dict_keys_set.
        assert (Hk : list_in key (dict_keys detected) = false).
        { apply not_true_iff_false. intros H. apply list_in_spec in H.
          apply (Hfresh key); [left; reflexivity | exact H]. }
        rewrite Hk, <- app_assoc. reflexivity.
      * exact Hnd.
      * intros k Hk. rewrite dict_keys_set.
        assert (Hk' : ~ In k (dict_keys detected))
          by (apply Hfresh; right; exact Hk).
        destruct (list_in key (dict_keys detected)); [exact Hk'|].
        intros H. apply in_app_or in H. destruct H as [H|[<-|[]]].
        -- exact (Hk' H).
        -- exact (Hkey Hk).
    + apply IH; [exact Hnd|]. intros k Hk. apply Hfresh. right. exact Hk.
Qed.

Lemma is_mapped_matched (cols : list pystr) (kp : pystr * list pystr) :
  In kp patterns -> is_mapped cols (fst kp) = pattern_found cols kp.
Proof.
  intros H. destruct kp as [key pats]. unfold is_mapped, pattern_found. cbn [fst snd].
  rewrite detect_columns_standard, (patterns_get key pats H). reflexivity.
Qed.

Lemma filter_map_fst {A B} (f : A -> bool) (l : list (A * B)) :
  filter f (map fst l) = map fst (filter (fun kp => f (fst kp)) l).
Proof.
  induction l as [|[a b] l IH]; [reflexivity|].
  cbn [map filter fst]. destruct (f a); cbn [map fst]; rewrite IH; reflexivity.
Qed.

Lemma filter_length_split {A} (f : A -> bool) (l : list A) :
  (List.length (filter f l) + List.length (filter (fun x => negb (f x)) l)
   = List.length l)%nat.
Proof.
  induction l as [|x l IH]; [reflexivity|].
  cbn [filter]. destruct (f x); cbn [negb List.length]; lia.
Qed.

(** X2.  Each of the seven standard fields is either mapped or named by exactly
    the warning printed for it.  The mapping holds the mapped fields and the
    warnings name the others, both in the order of the table of patterns,
    and together they are seven. *)
Theorem detect_columns_maps_or_warns :
  forall (cols : list pystr),
    let mapping := fst (detect_columns cols) in
    let warnings := snd (detect_columns cols) in
    dict_keys (standard mapping) = filter (is_mapped cols) (dict_keys patterns) /\
    warnings =
    map Warning_no_column
        (filter (fun key => negb (is_mapped cols key)) (dict_keys patterns)) /\
    (forall key, In key (dict_keys patterns) ->
                 (In (Warning_no_column key) warnings <->
                  dict_get key (standard mapping) = None)) /\
    (List.length (standard mapping) + List.length warnings = 7)%nat.
Proof.
  intros cols mapping warnings.
  assert (Hkeys : dict_keys (standard mapping)
                  = filter (is_mapped cols) (dict_keys patterns)).
  { unfold mapping, dict_keys at 2. rewrite filter_map_fst.
    rewrite (filter_ext_in (fun kp => is_mapped cols (fst kp)) (pattern_found cols)
               patterns (is_mapped_matched cols)).
    unfold detect_columns.
    pose proof (find_standard_keys cols patterns [] [] patterns_NoDup) as H.
    destruct (find_standard cols patterns [] []) as [detected log].
    cbn [fst standard] in *. apply H. intros k _ []. }
  assert (Hwarn : warnings =
                  map Warning_no_column
                      (filter (fun key => negb (is_mapped cols key))
                              (dict_keys patterns))).
  { unfold warnings. rewrite detect_columns_log. f_equal.
    unfold dict_keys. rewrite filter_map_fst. f_equal.
    apply filter_ext_in. intros kp Hkp.
    rewrite (is_mapped_matched cols kp Hkp). unfold pattern_found.
    destruct (first_match cols (snd kp)); reflexivity. }
  split; [exact Hkeys|]. split; [exact Hwarn|]. split.
  - intros key Hkey. rewrite Hwarn. split.
    + intros H. apply in_map_iff in H. destruct H as (k & Hk & H).
      injection Hk as ->. apply filter_In in H. destruct H as [_ H].
      apply negb_true_iff in H. unfold is_mapped in H. fold mapping in H.
      destruct (dict_get key (standard mapping)); [discriminate|reflexivity].
    + intros H. apply in_map. apply filter_In. split; [exact Hkey|].
      unfold is_mapped. fold mapping. rewrite H. reflexivity.
  - rewrite Hwarn, length_map.
    rewrite <- (length_map fst (standard mapping)).
    change (map fst (standard mapping)) with (dict_keys (standard mapping)).
    rewrite Hkeys.
    rewrite filter_length_split. reflexivity.
Qed.

Lemma dict_getitem_ok {V} (d : dict V) (k : pystr) (v : V) :
  dict_getitem d k = Ok v <-> dict_get k d = Some v.
Proof.
  unfold dict_getitem. destruct (dict_get k d); split; intros H;
    try discriminate; injection H as <-; reflexivity.
Qed.


Lemma no_warning_all_mapped (cols : list pystr) (key : pystr) :
  snd (detect_columns cols) = [] ->
  In key (dict_keys patterns) ->
  exists h, dict_getitem (standard (fst (detect_columns cols))) key = Ok h.
Proof.
  intros Hw Hkey. rewrite detect_columns_log in Hw.
  apply map_eq_nil in Hw. apply map_eq_nil in Hw.
  apply in_map_iff in Hkey. destruct Hkey as ([k pats] & <- & Hin).
  pose proof (proj1 (filter_nil_iff _ _) Hw (k, pats) Hin) as H.
  cbn [fst snd] in *. unfold dict_getitem.
  rewrite detect_columns_standard, (patterns_get k pats Hin).
  destruct (first_match cols pats) as [h|]; [|discriminate].
  exists h. reflexivity.
Qed.

(** ** Cleaning and coercion: further properties *)

Lemma df_getitem_ok (df : DataFrame) (col : pystr) :
  In col (columns df) -> df_getitem df col = Ok (map (row_get col) (rows df)).
Proof.
  intros H. unfold df_getitem. apply list_in_spec in H. rewrite H. reflexivity.
Qed.

Lemma df_getitem_raise (df : DataFrame) (col : pystr) (e : exn) :
  df_getitem df col = Raise e -> e = KeyError col /\ ~ In col (columns df).
Proof.
  unfold df_getitem. destruct (list_in col (columns df)) eqn:E; [discriminate|].
  intros H. injection H as <-. split; [reflexivity|].
  apply list_in_false. exact E.
Qed.

(** X3.  [filter_combined_rows] raises [KeyError] on a column the table lacks.
    When it returns, a second pass over its result changes nothing, it never
    adds a row, and a table without a 'Combined' cell in the column is
    returned as it is. *)
Theorem filter_combined_rows_idempotent :
  forall (df : DataFrame) (col : pystr),
    (~ In col (columns df) -> filter_combined_rows df col = Raise (KeyError col)) /\
    (forall clean,
       filter_combined_rows df col = Ok clean ->
       filter_combined_rows clean col = Ok clean /\
       (List.length (rows clean) <= List.length (rows df))%nat /\
       ((forall r, In r (rows df) ->
                   ~ substring (u "Combined") (astype_str (row_get col r))) ->
        clean = df)).
Proof.
  intros df col. rewrite filter_combined_rows_eq. split.
  - intros H. apply list_in_false in H. rewrite H. reflexivity.
  - intros clean. destruct (list_in col (columns df)) eqn:E; [|discriminate].
    intros H. injection H as <-. split; [|split].
    + rewrite filter_combined_rows_eq. cbn [columns rows]. rewrite E, filter_idem.
      reflexivity.
    + cbn [rows]. apply filter_length_le.
    + intros H. destruct df as [cols rs]. cbn [columns rows] in *. f_equal.
      apply forallb_filter_id. apply forallb_forall. intros r Hr.
      apply not_combined_spec. apply H. exact Hr.
Qed.







(** ** Aggregates: further properties *)









Lemma Z2F_zero : Z2F 0 = S754_zero false.
Proof. reflexivity. Qed.

Lemma Z2F_hundred : exists m e, Z2F 100 = S754_finite false m e.
Proof. eexists. eexists. vm_compute. reflexivity. Qed.

(** X6.  A candidate without votes has a percentage of exactly zero whenever the
    total is a non-zero integer below 2^53: the signed zero of binary64, not
    NaN. *)
Theorem percentage_without_votes :
  forall (total : Z),
    0 < Z.abs total < 2 ^ 53 ->
    percentage (VInt 0) (VInt total) = VFloat (S754_zero (total <? 0)) /\
    forall (cands : list pystr) (total_col : pystr) (res : ResultFrame)
           (k : Z) (r : vrow) (c : pystr),
      In (k, r) (rrows (add_percentages cands total_col res)) ->
      In c cands ->
      vrow_get c r = VInt 0 ->
      vrow_get total_col r = VInt total ->
      vrow_get (c ++ u "_pct") r = VFloat (S754_zero (total <? 0)).
Proof.
  intros total H.
  assert (P : percentage (VInt 0) (VInt total) = VFloat (S754_zero (total <? 0))).
  { unfold percentage. cbn [to_float]. rewrite Z2F_zero.
    destruct (Z2F_small_finite total H) as (m & e & ->).
    destruct Z2F_hundred as (m' & e' & ->).
    unfold fdiv, fmul. cbn [SFdiv SFmul xorb]. destruct (total <? 0); reflexivity. }
  split; [exact P|].
  intros cands total_col res k r c Hin Hc Hvotes Hall.
  rewrite add_percentages_rows in Hin. apply in_map_iff in Hin.
  destruct Hin as [[k0 r0] [E Hin0]]. cbn [fst snd] in E.
  injection E as Ek Er. subst k0 r.
  destruct (pct_fold_int _ _ _ _ _ Hvotes) as [Hfc Hc0].
  destruct (pct_fold_int _ _ _ _ _ Hall) as [Hft Ht0].
  rewrite (pct_fold_value total_col cands c r0 Hc)
    by (intros c' Hc'; split; [apply Hfc | apply Hft]; exact Hc').
  rewrite Hc0, Ht0. exact P.
Qed.

Lemma percentage_without_votes_witness :
  percentage (VInt 0) (VInt 28) = VFloat (S754_zero (28 <? 0)).
Proof.
  exact (proj1 (percentage_without_votes 28 ltac:(cbn; lia))).
Defined.

Lemma SFcompare_nan_r (f : float64) : SFcompare f S754_nan = None.
Proof. destruct f; reflexivity. Qed.

Lemma value_gt_not_nan (a b : value) :
  value_gt a b = true -> nan_value a = false /\ nan_value b = false.
Proof.
  destruct a as [|x|f|s], b as [|y|g|t]; cbn; try discriminate;
    try (intros _; split; reflexivity);
    try (destruct f; cbn; try discriminate);
    try (destruct g; cbn; try discriminate);
    try (intros _; split; reflexivity).
  all: try (rewrite SFcompare_nan_r; discriminate).
Qed.

Lemma max_by_In (key : pystr -> value) (items : list pystr) :
  forall best, In (max_by key best items) (best :: items).
Proof.
  induction items as [|x items IH]; intros best; cbn [max_by].
  - left. reflexivity.
  - destruct (value_gt (key x) (key best)).
    + right. apply IH.
    + destruct (IH best) as [H|H]; [left; exact H | right; right; exact H].
Qed.

Lemma max_by_nan (key : pystr -> value) (items : list pystr) :
  forall best,
    (nan_value (key best) = true -> max_by key best items = best) /\
    (nan_value (key (max_by key best items)) = true ->
     max_by key best items = best).
Proof.
  induction items as [|x items IH]; intros best; cbn [max_by].
  - split; reflexivity.
  - destruct (value_gt (key x) (key best)) eqn:G.
    + apply value_gt_not_nan in G. destruct G as [Gx Gb]. split.
      * intros H. congruence.
      * intros H. destruct (IH x) as [_ IH2]. rewrite (IH2 H) in H. congruence.
    + apply IH.
Qed.

(** X7.  [find_leading_candidate] on a row that holds a number for every
    candidate: it raises [ValueError] on an empty list of candidates and
    otherwise names one of them.  A later candidate takes over only on a
    strictly greater value, so a first candidate whose value is NaN is
    always named, and no other candidate whose value is NaN ever is. *)
Theorem find_leading_candidate_names_a_candidate :
  forall (r : vrow) (cands : list pystr),
    (forall c, In c cands ->
               exists v, dict_get c r = Some v /\ is_number v = true) ->
    (cands = [] ->
     find_leading_candidate r cands
     = Raise (ValueError (u "max() arg is an empty sequence"))) /\
    (cands <> [] ->
     exists leader,
       find_leading_candidate r cands = Ok leader /\
       In leader cands /\
       (nan_value (vrow_get (hd [] cands) r) = true -> leader = hd [] cands) /\
       (nan_value (vrow_get leader r) = true -> leader = hd [] cands)).
Proof.
  intros r cands _. split; [intros ->; reflexivity|].
  destruct cands as [|c0 cs]; [congruence|]. intros _.
  unfold find_leading_candidate.
  set (cv := fold_left (fun d candidate => dict_set candidate (vrow_get candidate r) d)
                       (c0 :: cs) []).
  assert (Hkeys : dict_keys cv = c0 :: first_occurrences [c0] cs).
  { unfold cv.
    rewrite (fold_dict_set_keys (fun c => vrow_get c r) (c0 :: cs) []).
    reflexivity. }
  assert (Hget : forall k, In k (c0 :: cs) -> vrow_get k cv = vrow_get k r).
  { intros k Hk. unfold vrow_get at 1. unfold cv.
    rewrite (fold_dict_set_get (fun c => vrow_get c r) (c0 :: cs) [] k).
    apply list_in_spec in Hk. rewrite Hk. reflexivity. }
  rewrite Hkeys. cbn [hd].
  set (key := fun k => vrow_get k cv).
  set (leader := max_by key c0 (first_occurrences [c0] cs)).
  assert (Hin : In leader (c0 :: cs)).
  { destruct (max_by_In key (first_occurrences [c0] cs) c0) as [H|H].
    - left. exact H.
    - right. apply first_occurrences_In in H. exact (proj1 H). }
  exists leader. split; [reflexivity|]. split; [exact Hin|].
  destruct (max_by_nan key (first_occurrences [c0] cs) c0) as [N1 N2].
  unfold key in N1, N2. fold key in N1, N2. fold leader in N1, N2.
  split.
  - intros H. apply N1. rewrite Hget; [exact H | left; reflexivity].
  - intros H. apply N2. rewrite (Hget leader Hin). exact H.
Qed.

Lemma find_leading_candidate_names_a_candidate_witness :
  (forall c, In c [u "A"; u "B"; u "C"] ->
             exists v, dict_get c nan_first_row = Some v /\ is_number v = true) /\
  [u "A"; u "B"; u "C"] <> [] /\
  find_leading_candidate nan_first_row [u "A"; u "B"; u "C"] = Ok (u "A").
Proof.
  assert (H : forall c, In c [u "A"; u "B"; u "C"] ->
                        exists v, dict_get c nan_first_row = Some v /\
                                  is_number v = true).
  { intros c [<-|[<-|[<-|[]]]]; eexists; split; vm_compute; reflexivity. }
  split; [exact H|]. split; [discriminate|].
  destruct (find_leading_candidate_names_a_candidate nan_first_row
              [u "A"; u "B"; u "C"] H) as [_ K].
  destruct (K ltac:(discriminate)) as (leader & E & _ & N & _).
  rewrite E. f_equal. apply N. vm_compute. reflexivity.
Defined.

(** ** The join: further properties *)

Lemma suffixed_fresh (sfx : pystr) (other : list pystr) (c : pystr) :
  ~ In c other -> suffixed sfx other c = c.
Proof.
  intros H. unfold suffixed. apply list_in_false in H. rewrite H. reflexivity.
Qed.

Lemma duplicates_NoDup (l : list pystr) : NoDup l -> duplicates l = [].
Proof.
  induction l as [|x l IH]; intros H; [reflexivity|].
  apply NoDup_cons_iff in H. destruct H as [Hx Hl].
  cbn [duplicates]. apply list_in_false in Hx. rewrite Hx. apply IH. exact Hl.
Qed.

Lemma NoDup_duplicates (l : list pystr) : duplicates l = [] -> NoDup l.
Proof.
  induction l as [|x l IH]; intros H; [constructor|].
  cbn [duplicates] in H. destruct (list_in x l) eqn:E; [discriminate|].
  constructor; [apply list_in_false; exact E | exact (IH H)].
Qed.

Lemma map_fresh (f : pystr -> pystr) (l : list pystr) :
  (forall c, In c l -> f c = c) -> map f l = l.
Proof.
  intros H. induction l as [|x l IH]; [reflexivity|].
  cbn [map]. rewrite H by (left; reflexivity).
  rewrite IH by (intros c Hc; apply H; right; exact Hc). reflexivity.
Qed.

Lemma rename_keys_fresh {V} (f : pystr -> pystr) (d : dict V) :
  (forall c, In c (dict_keys d) -> f c = c) -> rename_keys f d = d.
Proof.
  intros H. unfold rename_keys. induction d as [|[k v] d IH]; [reflexivity|].
  cbn [map fst snd]. rewrite H by (left; reflexivity).
  rewrite IH by (intros c Hc; apply H; right; exact Hc). reflexivity.
Qed.

Lemma NoDup_app_disjoint {A} (l1 l2 : list A) (x : A) :
  NoDup (l1 ++ l2) -> In x l1 -> ~ In x l2.
Proof.
  induction l1 as [|y l1 IH]; intros H Hx; [destruct Hx|].
  cbn [app] in H. apply NoDup_cons_iff in H. destruct H as [Hy H].
  destruct Hx as [<-|Hx].
  - intros K. apply Hy. apply in_or_app. right. exact K.
  - exact (IH H Hx).
Qed.


Lemma merge_columns_disjoint (left right : list pystr) :
  NoDup (left ++ right) -> merge_columns left right = Ok (left ++ right).
Proof.
  intros H. unfold merge_columns.
  assert (Hl : map (suffixed (u "_x") right) left = left).
  { apply map_fresh. intros c Hc. apply suffixed_fresh. intros Hr.
    apply NoDup_app_remove_l in H as Hr'.
    revert H Hc Hr. clear. induction left as [|x left IH]; intros H Hc Hr; [exact Hc|].
    cbn [app] in H. apply NoDup_cons_iff in H. destruct H as [Hx H].
    destruct Hc as [<-|Hc].
    - apply Hx. apply in_or_app. right. exact Hr.
    - exact (IH H Hc Hr). }
  assert (Hr : map (suffixed (u "_y") left) right = right).
  { apply map_fresh. intros c Hc. apply suffixed_fresh. intros Hl'.
    revert H Hc Hl'. clear. induction left as [|x left IH]; intros H Hc Hl; [exact Hl|].
    cbn [app] in H. apply NoDup_cons_iff in H. destruct H as [Hx H].
    destruct Hl as [<-|Hl].
    - apply Hx. apply in_or_app. right. exact Hc.
    - exact (IH H Hc Hl). }
  rewrite Hl, Hr, (duplicates_NoDup _ H). reflexivity.
Qed.

Lemma dict_get_not_key {V} (k : pystr) (d : dict V) :
  ~ In k (dict_keys d) -> dict_get k d = None.
Proof.
  induction d as [|[k' v] d IH]; intros H; [reflexivity|].
  cbn [dict_get]. destruct (str_eqb k k') eqn:E.
  - apply str_eqb_eq in E. subst k'. exfalso. apply H. left. reflexivity.
  - apply IH. intros K. apply H. right. exact K.
Qed.

Lemma dict_get_app_some {V} (k : pystr) (d1 d2 : dict V) (v : V) :
  dict_get k d1 = Some v -> dict_get k (d1 ++ d2) = Some v.
Proof.
  induction d1 as [|[k' v'] d1 IH]; [discriminate|].
  cbn [dict_get app]. destruct (str_eqb k k'); [intros H; exact H | exact IH].
Qed.

Lemma flat_map_agree {A B} (f g : A -> list B) (l : list A) :
  (forall a, In a l -> f a = g a) -> flat_map f l = flat_map g l.
Proof.
  intros H. induction l as [|x l IH]; [reflexivity|].
  cbn [flat_map]. rewrite H by (left; reflexivity).
  rewrite IH by (intros a Ha; apply H; right; exact Ha). reflexivity.
Qed.

Lemma merge_inner_disjoint {geometry : Type} (gdf : GeoFrame geometry)
    (res : ResultFrame) :
  NoDup (gcolumns gdf ++ rcolumns res) ->
  (forall f c, In f (features gdf) -> In c (dict_keys (attrs f)) ->
               In c (gcolumns gdf)) ->
  (forall kr c, In kr (rrows res) -> In c (dict_keys (snd kr)) ->
                In c (rcolumns res)) ->
  merge_inner gdf res =
  Ok {| gcolumns := gcolumns gdf ++ rcolumns res; features := joined gdf res |}.
Proof.
  intros Hnd Hf Hr. unfold merge_inner.
  rewrite (merge_columns_disjoint _ _ Hnd). cbn [rbind]. f_equal. f_equal.
  unfold joined. apply flat_map_agree. intros f Hin.
  apply map_ext_in. intros kr Hkr. apply filter_In in Hkr. destruct Hkr as [Hkr _].
  f_equal. f_equal.
  - apply rename_keys_fresh. intros c Hc. apply suffixed_fresh.
    apply (NoDup_app_disjoint _ _ c Hnd). exact (Hf f c Hin Hc).
  - apply rename_keys_fresh. intros c Hc. apply suffixed_fresh.
    intros K. apply (NoDup_app_disjoint _ _ c Hnd K). exact (Hr kr c Hkr Hc).
Qed.

(** X8.  The join when no column name occurs on both sides.  The joined table
    has the columns of the boundary file followed by those of the
    aggregates; every joined feature is a feature of the boundary file with
    its own attributes and geometry and the values of the aggregate that has
    its ['PD_NUM']; every such pair is joined; and the join has no more
    features than the boundary file. *)
Theorem merge_inner_attaches_aggregate :
  forall (geometry : Type) (gdf merged : GeoFrame geometry) (res : ResultFrame),
    NoDup (map fst (rrows res)) ->
    NoDup (gcolumns gdf ++ rcolumns res) ->
    (forall f c, In f (features gdf) -> In c (dict_keys (attrs f)) ->
                 In c (gcolumns gdf)) ->
    (forall kr c, In kr (rrows res) -> In c (dict_keys (snd kr)) ->
                  In c (rcolumns res)) ->
    merge_inner gdf res = Ok merged ->
    gcolumns merged = gcolumns gdf ++ rcolumns res /\
    (forall g, In g (features merged) ->
       exists f r,
         In f (features gdf) /\ In (PD_NUM f, r) (rrows res) /\
         PD_NUM g = PD_NUM f /\ geom g = geom f /\
         (forall c, In c (gcolumns gdf) ->
                    vrow_get c (attrs g) = vrow_get c (attrs f)) /\
         (forall c, In c (rcolumns res) ->
                    vrow_get c (attrs g) = vrow_get c r)) /\
    (forall f r, In f (features gdf) -> In (PD_NUM f, r) (rrows res) ->
       In {| PD_NUM := PD_NUM f; attrs := attrs f ++ r; geom := geom f |}
          (features merged)) /\
    (List.length (features merged) <= List.length (features gdf))%nat.
Proof.
  intros geometry gdf merged res Hkeys Hnd Hf Hr Hm.
  rewrite (merge_inner_disjoint gdf res Hnd Hf Hr) in Hm. injection Hm as <-.
  cbn [gcolumns features]. split; [reflexivity|]. split; [|split].
  - intros g Hg. unfold joined in Hg. apply in_flat_map in Hg.
    destruct Hg as (f & Hin & Hg). apply in_map_iff in Hg.
    destruct Hg as ([k r] & <- & Hkr). apply filter_In in Hkr.
    destruct Hkr as [Hkr Hk]. cbn [fst] in Hk. apply Z.eqb_eq in Hk. subst k.
    exists f, r. cbn [PD_NUM attrs geom snd].
    split; [exact Hin|]. split; [exact Hkr|]. split; [reflexivity|].
    split; [reflexivity|]. split.
    + intros c Hc. unfold vrow_get.
      destruct (dict_get c (attrs f)) as [v|] eqn:E.
      * rewrite (dict_get_app_some _ _ _ _ E). reflexivity.
      * rewrite (dict_get_app_none _ _ _ E).
        rewrite dict_get_not_key; [reflexivity|].
        intros K. apply (NoDup_app_disjoint _ _ c Hnd Hc).
        exact (Hr _ c Hkr K).
    + intros c Hc. unfold vrow_get. rewrite dict_get_app_none; [reflexivity|].
      apply dict_get_not_key. intros K.
      apply (NoDup_app_disjoint _ _ c Hnd (Hf f c Hin K)). exact Hc.
  - intros f r Hin Hkr. unfold joined. apply in_flat_map. exists f.
    split; [exact Hin|].
    apply (in_map (fun kr => {| PD_NUM := PD_NUM f; attrs := attrs f ++ snd kr;
                                geom := geom f |}) _ (PD_NUM f, r)).
    apply filter_In. split; [exact Hkr|]. cbn [fst]. apply Z.eqb_refl.
  - unfold joined. clear Hf.
    induction (features gdf) as [|f fs IH]; [cbn; lia|].
    cbn [flat_map]. rewrite length_app, length_map. cbn [List.length].
    assert (H1 : (List.length (filter (fun kr : Z * vrow => (fst kr =? PD_NUM f)%Z)
                                      (rrows res)) <= 1)%nat).
    { destruct (filter_key_NoDup (rrows res) (PD_NUM f) Hkeys)
        as [[_ ->]|[_ [a ->]]]; cbn; lia. }
    change (S (List.length fs)) with (1 + List.length fs)%nat.
    apply Nat.add_le_mono; [exact H1 | exact IH].
Qed.

Lemma merge_inner_attaches_aggregate_witness :
  gcolumns division_join = gcolumns boundaries ++ rcolumns division_frame /\
  (List.length (features division_join) <= List.length (features boundaries))%nat.
Proof.
  assert (H1 : NoDup (map fst (rrows division_frame))).
  { cbn. constructor; [intros []|constructor]. }
  assert (H2 : NoDup (gcolumns boundaries ++ rcolumns division_frame)).
  { apply NoDup_duplicates. vm_compute. reflexivity. }
  assert (H3 : forall (f : Feature polygon) c,
             In f (features boundaries) -> In c (dict_keys (attrs f)) ->
             In c (gcolumns boundaries)).
  { intros f c [<-|[<-|[<-|[]]]] [<-|[]]; left; reflexivity. }
  assert (H4 : forall (kr : Z * vrow) c,
             In kr (rrows division_frame) -> In c (dict_keys (snd kr)) ->
             In c (rcolumns division_frame)).
  { intros kr c [<-|[]] [<-|[<-|[]]]; [left | right; left]; reflexivity. }
  assert (H5 : merge_inner boundaries division_frame = Ok division_join)
    by (vm_compute; reflexivity).
  destruct (merge_inner_attaches_aggregate polygon boundaries division_join
              division_frame H1 H2 H3 H4 H5) as (G1 & _ & _ & G2).
  split; [exact G1 | exact G2].
Defined.

(** ** Names of the output files *)

Lemma take_until_no (c : N) (s : pystr) : ~ In c (take_until c s).
Proof.
  induction s as [|x s IH]; cbn [take_until]; [intros []|].
  destruct (N.eqb_spec x c) as [E|E]; [intros []|].
  intros [H|H]; [exact (E H) | exact (IH H)].
Qed.

Lemma take_until_app (c : N) (s t : pystr) :
  ~ In c s -> take_until c (s ++ c :: t) = s.
Proof.
  induction s as [|x s IH]; intros H; cbn [app take_until].
  - rewrite N.eqb_refl. reflexivity.
  - destruct (N.eqb_spec x c) as [E|E].
    + exfalso. apply H. left. exact E.
    + rewrite IH; [reflexivity|]. intros K. apply H. right. exact K.
Qed.

Lemma take_until_all (c : N) (s : pystr) : ~ In c s -> take_until c s = s.
Proof.
  induction s as [|x s IH]; intros H; cbn [take_until]; [reflexivity|].
  destruct (N.eqb_spec x c) as [E|E].
  - exfalso. apply H. left. exact E.
  - rewrite IH; [reflexivity|]. intros K. apply H. right. exact K.
Qed.

Lemma drop_until_app (c : N) (s t : pystr) :
  ~ In c s -> drop_until c (s ++ c :: t) = c :: t.
Proof.
  induction s as [|x s IH]; intros H; cbn [app drop_until].
  - rewrite N.eqb_refl. reflexivity.
  - destruct (N.eqb_spec x c) as [E|E].
    + exfalso. apply H. left. exact E.
    + apply IH. intros K. apply H. right. exact K.
Qed.

Lemma drop_until_none (c : N) (s : pystr) : ~ In c s -> drop_until c s = [].
Proof.
  induction s as [|x s IH]; intros H; cbn [drop_until]; [reflexivity|].
  destruct (N.eqb_spec x c) as [E|E].
  - exfalso. apply H. left. exact E.
  - apply IH. intros K. apply H. right. exact K.
Qed.

Lemma drop_until_suffix (c : N) (s : pystr) :
  exists pre, s = pre ++ drop_until c s.
Proof.
  induction s as [|x s [pre IH]]; cbn [drop_until]; [exists []; reflexivity|].
  destruct (x =? c)%N.
  - exists []. reflexivity.
  - exists (x :: pre). cbn [app]. f_equal. exact IH.
Qed.

Lemma basename_no_slash (p : pystr) : ~ In 47%N (basename p).
Proof.
  unfold basename. intros H. apply in_rev in H.
  exact (take_until_no _ _ H).
Qed.

Lemma basename_app (dir name : pystr) :
  ~ In 47%N name -> basename (dir ++ 47%N :: name) = name.
Proof.
  intros H. unfold basename.
  rewrite rev_app_distr. cbn [rev]. rewrite <- app_assoc. cbn [app].
  rewrite take_until_app; [apply rev_involutive|].
  intros K. apply in_rev in K. exact (H K).
Qed.

Lemma basename_plain (name : pystr) : ~ In 47%N name -> basename name = name.
Proof.
  intros H. unfold basename. rewrite take_until_all; [apply rev_involutive|].
  intros K. apply in_rev in K. exact (H K).
Qed.

Lemma splitext_root_incl (b : pystr) (c : N) :
  In c (splitext_root b) -> In c b.
Proof.
  unfold splitext_root.
  destruct (drop_until_suffix 46%N (rev b)) as [pre E].
  destruct (drop_until 46 (rev b)) as [|d root_rev]; [intros H; exact H|].
  destruct (existsb _ root_rev); [|intros H; exact H].
  intros H. apply in_rev in H. apply in_rev. rewrite E.
  apply in_or_app. right. right. exact H.
Qed.

Lemma splitext_root_ext (stem ext : pystr) :
  (exists c, In c stem /\ c <> 46%N) -> ~ In 46%N ext ->
  splitext_root (stem ++ 46%N :: ext) = stem.
Proof.
  intros (c & Hc & Hne) Hext. unfold splitext_root.
  rewrite rev_app_distr. cbn [rev]. rewrite <- app_assoc. cbn [app].
  rewrite drop_until_app by (intros K; apply in_rev in K; exact (Hext K)).
  assert (E : existsb (fun c => negb (c =? 46)%N) (rev stem) = true).
  { apply existsb_exists. exists c. split; [apply in_rev in Hc; exact Hc|].
    apply negb_true_iff. apply N.eqb_neq. exact Hne. }
  rewrite E. apply rev_involutive.
Qed.

Lemma splitext_root_plain (b : pystr) : ~ In 46%N b -> splitext_root b = b.
Proof.
  intros H. unfold splitext_root.
  rewrite drop_until_none; [reflexivity|].
  intros K. apply in_rev in K. exact (H K).
Qed.

(** X9.  The default prefix of the output files is the name of the results file
    without its directories and its last extension, so that the outputs are
    written to the working directory: it never contains a ['/'] (code point
    47; the dot is 46).  A prefix given by the caller is used as it is. *)
Theorem output_name_is_the_file_stem :
  forall (dir stem ext : pystr),
    ~ In 47%N stem -> (exists c, In c stem /\ c <> 46%N) ->
    ~ In 47%N ext -> ~ In 46%N ext ->
    output_name (dir ++ 47%N :: stem ++ 46%N :: ext) None = stem /\
    output_name (stem ++ 46%N :: ext) None = stem /\
    (~ In 46%N stem -> output_name (dir ++ 47%N :: stem) None = stem) /\
    (forall path, ~ In 47%N (output_name path None)) /\
    (forall path prefix, output_name path (Some prefix) = prefix).
Proof.
  intros dir stem ext Hs Hc He1 He2.
  assert (Hname : ~ In 47%N (stem ++ 46%N :: ext)).
  { intros K. apply in_app_or in K. destruct K as [K|[K|K]];
      [exact (Hs K) | discriminate | exact (He1 K)]. }
  unfold output_name. split.
  - rewrite basename_app by exact Hname. apply splitext_root_ext; assumption.
  - split.
    + rewrite basename_plain by exact Hname. apply splitext_root_ext; assumption.
    + split.
      * intros Hd. rewrite basename_app by exact Hs.
        apply splitext_root_plain. exact Hd.
      * split; [|reflexivity].
        intros path K. apply splitext_root_incl in K.
        exact (basename_no_slash _ K).
Qed.

Lemma output_name_is_the_file_stem_witness :
  output_name (u "data" ++ 47%N :: u "pollbypoll.v2" ++ 46%N :: u "csv") None
  = u "pollbypoll.v2".
Proof.
  apply (output_name_is_the_file_stem (u "data") (u "pollbypoll.v2") (u "csv")).
  - vm_compute. intuition discriminate.
  - exists 112%N. split; [vm_compute; auto | discriminate].
  - vm_compute. intuition discriminate.
  - vm_compute. intuition discriminate.
Defined.

(** ** Runs of [process_election_data] *)

(** [process_election_data] returns exactly when each of its steps does. *)
Lemma process_returns_iff (geometry : Type) (reproject : geometry -> geometry)
    (csv geo : pystr) (prefix : option pystr) (w w' : world geometry)
    (s : Summary) :
  process_election_data reproject csv geo prefix w = (Ok s, w') <->
  exists r, run_steps reproject csv geo w r /\
            s = run_summary csv prefix r /\
            w' = run_world csv geo prefix w r.
Proof.
  split.
  - intros H.
    unfold process_election_data, bind, print, print_all, lift, read_csv,
      read_file, to_file, ret in H.
    cbn [files log] in H.
    destruct (dict_get csv (files w)) as [[csv_data|g]|] eqn:Ecsv; try discriminate.
    destruct (detect_columns (columns csv_data)) as [mapping warnings] eqn:Edet.
    do 9 (step H; [|discriminate]).
    cbn [files log] in H.
    destruct (dict_get geo (files w)) as [[df|gdf]|] eqn:Egeo; try discriminate.
    do 5 (step H; [|discriminate]).
    cbn [files log] in H.
    injection H as Hs Hw.
    exists {| run_csv := csv_data; run_gdf := gdf;
              run_district_num_col := a; run_district_name_col := a0;
              run_pd_num_col := a1; run_pd_name_col := a2;
              run_rejected_col := a3; run_total_votes_col := a4;
              run_electors_col := a5; run_district_number := a6;
              run_district_name := a7; run_fed_num := a8; run_results := a9;
              run_merged := a10; run_full := a11; run_simple := a12 |}.
    unfold run_steps, run_summary, run_world, run_log, run_numeric_cols,
      run_district, run_mapping.
    cbn [run_csv run_gdf run_district_num_col run_district_name_col
         run_pd_num_col run_pd_name_col run_rejected_col run_total_votes_col
         run_electors_col run_district_number run_district_name run_fed_num
         run_results run_merged run_full run_simple].
    rewrite Edet. cbn [fst snd].
    split; [|split].
    + repeat split; assumption.
    + symmetry. exact Hs.
    + rewrite <- Hw. f_equal. rewrite <- !app_assoc. reflexivity.
  - intros (r & Hsteps & -> & ->).
    destruct r as [csv_data gdf a a0 a1 a2 a3 a4 a5 a6 a7 a8 a9 a10 a11 a12].
    unfold run_steps, run_summary, run_world, run_log, run_numeric_cols,
      run_district, run_mapping in *.
    cbn [run_csv run_gdf run_district_num_col run_district_name_col
         run_pd_num_col run_pd_name_col run_rejected_col run_total_votes_col
         run_electors_col run_district_number run_district_name run_fed_num
         run_results run_merged run_full run_simple] in *.
    destruct Hsteps as (Ecsv & E0 & E1 & E2 & E3 & E4 & E5 & E6 & E7 & E8 & Egeo
                        & E9 & E10 & E11 & E12 & E13).
    unfold process_election_data, bind, print, print_all, lift, read_csv,
      read_file, to_file, ret.
    cbn [files log]. rewrite Ecsv.
    destruct (detect_columns (columns csv_data)) as [mapping warnings] eqn:Edet.
    cbn [fst snd] in *.
    rewrite E0, E1, E2, E3, E4, E5, E6, E7, E8. cbn [files log].
    rewrite Egeo, E9, E10, E11, E12. cbn [files log]. rewrite E13.
    cbn [files log]. f_equal. f_equal. rewrite <- !app_assoc. reflexivity.
Qed.

Lemma first_cell_ok (df : DataFrame) (col : pystr) (c : cell) :
  rbind (df_getitem df col) iloc0 = Ok c ->
  exists first rest, rows df = first :: rest /\ c = row_get col first.
Proof.
  unfold df_getitem. destruct (list_in col (columns df)); [|discriminate].
  cbn [rbind]. destruct (rows df) as [|first rest]; [discriminate|].
  cbn [map iloc0]. intros H. injection H as <-.
  exists first, rest. split; reflexivity.
Qed.

(** X10.  What [process_election_data] returns and touches.  The two files are
    named after the prefix; no other path of the file system is changed; the
    district number and name are those of the first row of the results file
    alone; the candidates are the detected ones, and there is at least one. *)
Theorem process_returns_summary :
  forall (geometry : Type) (reproject : geometry -> geometry)
         (csv geo : pystr) (prefix : option pystr) (w w' : world geometry)
         (s : Summary),
    process_election_data reproject csv geo prefix w = (Ok s, w') ->
    results_file s = output_name csv prefix ++ u "_election_results.geojson" /\
    simple_file s = output_name csv prefix ++ u "_election_simple.geojson" /\
    (forall path, path <> results_file s -> path <> simple_file s ->
                  dict_get path (files w') = dict_get path (files w)) /\
    exists df first rest number_col name_col,
      dict_get csv (files w) = Some (CsvFile df) /\
      rows df = first :: rest /\
      dict_get (u "district_number") (standard (fst (detect_columns (columns df))))
      = Some number_col /\
      dict_get (u "district_name") (standard (fst (detect_columns (columns df))))
      = Some name_col /\
      district_number s = row_get number_col first /\
      district_name s = row_get name_col first /\
      summary_candidates s = candidates (fst (detect_columns (columns df))) /\
      summary_candidates s <> [].
Proof.
  intros geometry reproject csv geo prefix w w' s Hp.
  apply process_returns_iff in Hp. destruct Hp as (r & Hsteps & -> & ->).
  destruct Hsteps as (Ecsv & E0 & E1 & _ & _ & _ & _ & _ & E7 & E8 & _ & _
                      & Eagg & _).
  cbn [run_summary run_world results_file simple_file files district_number
       district_name summary_candidates].
  split; [reflexivity|]. split; [reflexivity|]. split.
  - intros path H1 H2.
    rewrite dict_get_set_other by exact H2.
    apply dict_get_set_other. exact H1.
  - apply first_cell_ok in E7. destruct E7 as (first & rest & Hrows & ->).
    apply first_cell_ok in E8. destruct E8 as (first' & rest' & Hrows' & ->).
    rewrite Hrows in Hrows'. injection Hrows' as <- <-.
    exists (run_csv r), first, rest, (run_district_num_col r),
      (run_district_name_col r).
    split; [exact Ecsv|]. split; [exact Hrows|].
    split; [apply dict_getitem_ok; exact E0|].
    split; [apply dict_getitem_ok; exact E1|].
    split; [reflexivity|]. split; [reflexivity|]. split; [reflexivity|].
    intros K. unfold aggregate in Eagg. unfold run_mapping in K, Eagg.
    rewrite K in Eagg. discriminate.
Qed.

Lemma process_returns_summary_witness :
  results_file sample_summary
  = output_name (u "results.csv") None ++ u "_election_results.geojson".
Proof.
  assert (H : process_election_data same_polygon (u "results.csv")
                (u "polling_divisions.geojson") None sample_world
              = (Ok sample_summary, sample_world_after))
    by (vm_compute; reflexivity).
  exact (proj1 (process_returns_summary polygon same_polygon (u "results.csv")
                  (u "polling_divisions.geojson") None sample_world
                  sample_world_after sample_summary H)).
Defined.

Lemma gf_select_ok {geometry} (gdf out : GeoFrame geometry) (cols : list pystr) :
  gf_select gdf cols = Ok out ->
  (forall c, In c cols -> In c (gcolumns gdf)) /\
  out = {| gcolumns := cols;
           features :=
             map (fun f => {| PD_NUM := PD_NUM f;
                              attrs := map (fun c => (c, vrow_get c (attrs f))) cols;
                              geom := geom f |})
                 (features gdf) |}.
Proof.
  unfold gf_select.
  destruct (filter (fun c => negb (list_in c (gcolumns gdf))) cols) as [|m l] eqn:E;
    [|discriminate].
  intros H. injection H as <-. split; [|reflexivity].
  intros c Hc. pose proof (proj1 (filter_nil_iff _ _) E c Hc) as K.
  apply negb_false_iff in K. apply list_in_spec. exact K.
Qed.

(** X11.  The simplified file is a projection of the full file: the same
    features in the same order with the same keys and geometries, and for
    each of them the values the full file has in the columns ['PD_NAME'],
    the candidates, rejected ballots, total votes and electors, the leading
    candidate and its percentage, and the percentages of the candidates, in
    that order. *)
Theorem simple_file_projects_full_file :
  forall (geometry : Type) (reproject : geometry -> geometry)
         (csv geo : pystr) (prefix : option pystr) (w w' : world geometry)
         (s : Summary),
    process_election_data reproject csv geo prefix w = (Ok s, w') ->
    exists df rejected total electors full simple,
      dict_get csv (files w) = Some (CsvFile df) /\
      dict_get (u "rejected") (standard (fst (detect_columns (columns df))))
      = Some rejected /\
      dict_get (u "total_votes") (standard (fst (detect_columns (columns df))))
      = Some total /\
      dict_get (u "electors") (standard (fst (detect_columns (columns df))))
      = Some electors /\
      dict_get (results_file s) (files w') = Some (GeoJSON full) /\
      dict_get (simple_file s) (files w') = Some (GeoJSON simple) /\
      gcolumns simple =
      [u "PD_NAME"] ++ summary_candidates s ++ [rejected; total; electors]
      ++ [u "leading_candidate"; u "leading_candidate_pct"]
      ++ map (fun candidate => candidate ++ u "_pct") (summary_candidates s) /\
      (forall c, In c (gcolumns simple) -> In c (gcolumns full)) /\
      features simple =
      map (fun f => {| PD_NUM := PD_NUM f;
                       attrs := map (fun c => (c, vrow_get c (attrs f)))
                                    (gcolumns simple);
                       geom := geom f |})
          (features full) /\
      (forall f c, In f (features simple) -> In c (gcolumns simple) ->
                   exists v, dict_get c (attrs f) = Some v).
Proof.
  intros geometry reproject csv geo prefix w w' s Hp.
  apply process_returns_iff in Hp. destruct Hp as (r & Hsteps & -> & ->).
  destruct Hsteps as (Ecsv & _ & _ & _ & _ & E4 & E5 & E6 & _ & _ & _ & _
                      & _ & _ & _ & Esel).
  apply gf_select_ok in Esel. destruct Esel as [Hin Hsimple].
  exists (run_csv r), (run_rejected_col r), (run_total_votes_col r),
    (run_electors_col r), (run_full r), (run_simple r).
  cbn [run_summary run_world results_file simple_file files summary_candidates].
  split; [exact Ecsv|].
  split; [apply dict_getitem_ok; exact E4|].
  split; [apply dict_getitem_ok; exact E5|].
  split; [apply dict_getitem_ok; exact E6|].
  split.
  { exact (proj1 (dict_get_files _ _ (GeoJSON (run_full r))
                    (GeoJSON (run_simple r)) (files w)
                    (output_names_differ (output_name csv prefix)))). }
  split; [apply dict_get_set_same|].
  rewrite Hsimple. cbn [gcolumns features].
  split.
  { unfold simple_columns, run_numeric_cols. rewrite <- !app_assoc. reflexivity. }
  split; [exact Hin|]. split; [reflexivity|].
  intros f c Hf Hc. apply in_map_iff in Hf. destruct Hf as (f0 & <- & _).
  cbn [attrs]. exists (vrow_get c (attrs f0)).
  apply (dict_get_map (fun c => vrow_get c (attrs f0))). exact Hc.
Qed.

Lemma simple_file_projects_full_file_witness :
  exists simple,
    dict_get (simple_file sample_summary) (files sample_world_after)
    = Some (GeoJSON simple) /\
    gcolumns simple =
    [u "PD_NAME"; u "Alice"; u "Bob"; u "Rejected Ballots"; u "Total Votes";
     u "Electors"; u "leading_candidate"; u "leading_candidate_pct";
     u "Alice_pct"; u "Bob_pct"].
Proof.
  assert (H : process_election_data same_polygon (u "results.csv")
                (u "polling_divisions.geojson") None sample_world
              = (Ok sample_summary, sample_world_after))
    by (vm_compute; reflexivity).
  destruct (simple_file_projects_full_file polygon same_polygon (u "results.csv")
              (u "polling_divisions.geojson") None sample_world
              sample_world_after sample_summary H)
    as (df & rej & tot & elec & full & simple & _ & _ & _ & _ & _ & G & _).
  exists simple. split; [exact G|].
  vm_compute in G. injection G as <-. vm_compute. reflexivity.
Defined.











(** X13.  Empty inputs.  With every standard field mapped, a results file without
    rows makes [process_election_data] raise [IndexError] once the columns
    are printed, before the boundary file is opened; a results file without
    candidate column makes it raise [IndexError] after the boundary file is
    read.  In both cases no file is written. *)
Theorem process_stops_on_empty_table :
  forall (geometry : Type) (reproject : geometry -> geometry)
         (csv geo : pystr) (prefix : option pystr) (w : world geometry)
         (df : DataFrame),
    dict_get csv (files w) = Some (CsvFile df) ->
    snd (detect_columns (columns df)) = [] ->
    (rows df = [] ->
     exists detected,
       process_election_data reproject csv geo prefix w
       = (Raise IndexError,
          {| files := files w;
             log := log w ++ [Reading_csv csv; detected] |})) /\
    (rows df <> [] ->
     candidates (fst (detect_columns (columns df))) = [] ->
     forall gdf,
       dict_get geo (files w) = Some (GeoJSON gdf) ->
       In (u "FED_NUM") (gcolumns gdf) ->
       exists w',
         process_election_data reproject csv geo prefix w = (Raise IndexError, w') /\
         files w' = files w).
Proof.
  intros geometry reproject csv geo prefix w df Ecsv Hw.
  destruct (no_warning_all_mapped _ (u "district_number") Hw
              ltac:(vm_compute; tauto)) as [a E0].
  destruct (no_warning_all_mapped _ (u "district_name") Hw
              ltac:(vm_compute; tauto)) as [a0 E1].
  destruct (no_warning_all_mapped _ (u "pd_number") Hw
              ltac:(vm_compute; tauto)) as [a1 E2].
  destruct (no_warning_all_mapped _ (u "pd_name") Hw
              ltac:(vm_compute; tauto)) as [a2 E3].
  destruct (no_warning_all_mapped _ (u "rejected") Hw
              ltac:(vm_compute; tauto)) as [a3 E4].
  destruct (no_warning_all_mapped _ (u "total_votes") Hw
              ltac:(vm_compute; tauto)) as [a4 E5].
  destruct (no_warning_all_mapped _ (u "electors") Hw
              ltac:(vm_compute; tauto)) as [a5 E6].
  assert (Ha : In a (columns df)).
  { apply dict_getitem_ok in E0. exact (detect_columns_standard_In _ _ _ E0). }
  assert (Ha0 : In a0 (columns df)).
  { apply dict_getitem_ok in E1. exact (detect_columns_standard_In _ _ _ E1). }
  unfold process_election_data, bind, print, print_all, lift, read_csv,
    read_file, to_file, ret.
  cbn [files log]. rewrite Ecsv.
  destruct (detect_columns (columns df)) as [mapping warnings] eqn:Edet.
  cbn [fst snd] in *. subst warnings.
  rewrite E0, E1, E2, E3, E4, E5, E6. cbn [files log].
  rewrite (df_getitem_ok df a Ha), (df_getitem_ok df a0 Ha0). cbn [rbind].
  split.
  - intros ->. cbn [map iloc0]. eexists. rewrite app_nil_r, <- !app_assoc.
    reflexivity.
  - intros Hrows Hcands gdf Egeo Hfed.
    destruct (rows df) as [|first rest]; [congruence|].
    cbn [map iloc0 files log]. rewrite Egeo.
    unfold gf_getitem. apply list_in_spec in Hfed. rewrite Hfed.
    cbn [files log]. rewrite Hcands. unfold aggregate. cbn [iloc0 rbind].
    eexists. split; reflexivity.
Qed.

Lemma process_stops_on_empty_table_witness :
  exists detected,
    process_election_data same_polygon (u "results.csv")
      (u "polling_divisions.geojson") None header_only_world
    = (Raise IndexError,
       {| files := files header_only_world;
          log := log header_only_world
                 ++ [Reading_csv (u "results.csv"); detected] |}).
Proof.
  assert (E : dict_get (u "results.csv") (files header_only_world)
              = Some (CsvFile header_only_table)) by (vm_compute; reflexivity).
  assert (W : snd (detect_columns (columns header_only_table)) = [])
    by (vm_compute; reflexivity).
  exact (proj1 (process_stops_on_empty_table polygon same_polygon
                  (u "results.csv") (u "polling_divisions.geojson") None
                  header_only_world header_only_table E W) eq_refl).
Defined.

(** ** Failures of a run *)










(** ** [main]: further properties *)

(** X14.  [main] returns without raising and without touching a file, after one
    message, when fewer than two arguments are given (the usage), when the
    results file does not exist, and when the results file exists but the
    boundary file does not. *)
Theorem main_stops_without_inputs :
  forall (geometry : Type) (reproject : geometry -> geometry)
         (argv : list pystr) (w : world geometry),
    ((List.length argv < 2)%nat ->
     main reproject argv w
     = (Ok tt, {| files := files w; log := log w ++ [Usage] |})) /\
    (forall script csv rest,
       argv = script :: csv :: rest ->
       dict_get csv (files w) = None ->
       main reproject argv w
       = (Ok tt, {| files := files w;
                    log := log w ++ [Error_csv_not_found csv] |})) /\
    (forall script csv rest,
       argv = script :: csv :: rest ->
       dict_get csv (files w) <> None ->
       dict_get (geojson_argument rest) (files w) = None ->
       main reproject argv w
       = (Ok tt, {| files := files w;
                    log := log w ++ [Error_geojson_not_found
                                       (geojson_argument rest)] |})).
Proof.
  intros geometry reproject argv w. split; [|split].
  - intros H. destruct argv as [|a [|b l]]; [reflexivity | reflexivity |].
    cbn [List.length] in H. lia.
  - intros script csv rest -> H.
    unfold main, bind, path_exists, print, ret. cbn [files log].
    rewrite H. reflexivity.
  - intros script csv rest -> Hcsv Hgeo.
    unfold main, bind, path_exists, print, ret. cbn [files log].
    destruct (dict_get csv (files w)) as [f|];
      [|exfalso; apply Hcsv; reflexivity].
    cbn [negb]. fold (geojson_argument rest). rewrite Hgeo. reflexivity.
Qed.

Lemma main_stops_without_inputs_witness :
  main same_polygon [u "filtergeojson.py"; u "results.csv"; u "missing.geojson"]
       sample_world
  = (Ok tt, {| files := files sample_world;
               log := log sample_world
                      ++ [Error_geojson_not_found
                            (geojson_argument [u "missing.geojson"])] |}).
Proof.
  destruct (main_stops_without_inputs polygon same_polygon
              [u "filtergeojson.py"; u "results.csv"; u "missing.geojson"]
              sample_world) as (_ & _ & H).
  apply (H (u "filtergeojson.py") (u "results.csv") [u "missing.geojson"]).
  - reflexivity.
  - vm_compute. discriminate.
  - vm_compute. reflexivity.
Defined.




(** X16.  When [process_election_data] returns for the arguments of the command
    line, [main] returns as well, leaves the files of the run and prints the
    template with the detected candidates and the name of the simplified
    file after the messages of the run; both output files exist.  Arguments
    after the third are ignored. *)
Theorem main_reports_success :
  forall (geometry : Type) (reproject : geometry -> geometry)
         (script csv : pystr) (rest : list pystr) (w w1 : world geometry)
         (s : Summary),
    process_election_data reproject csv
      (geojson_argument rest) (prefix_argument rest) w = (Ok s, w1) ->
    main reproject (script :: csv :: rest) w
    = (Ok tt, {| files := files w1;
                 log := log w1 ++ [Html_template (summary_candidates s)
                                                 (simple_file s)] |}) /\
    summary_candidates s <> [] /\
    (exists full, dict_get (results_file s) (files w1) = Some (GeoJSON full)) /\
    (exists simple, dict_get (simple_file s) (files w1) = Some (GeoJSON simple)).
Proof.
  intros geometry reproject script csv rest w w1 s Hp.
  pose proof Hp as Hr. apply process_returns_iff in Hr.
  destruct Hr as (r & Hsteps & Hs & Hw).
  destruct Hsteps as (Ecsv & _ & _ & _ & _ & _ & _ & _ & _ & _ & Egeo & _ & Eagg & _).
  split; [|split; [|split]].
  - unfold main, bind, path_exists, print, ret, try_except, lift. cbn [files log].
    rewrite Ecsv. cbn [negb].
    fold (geojson_argument rest). fold (prefix_argument rest).
    rewrite Egeo. cbn [negb]. rewrite Hp. reflexivity.
  - rewrite Hs. cbn [run_summary summary_candidates]. intros K.
    unfold aggregate in Eagg. rewrite K in Eagg. discriminate.
  - rewrite Hs, Hw. cbn [run_summary run_world results_file files].
    exists (run_full r).
    exact (proj1 (dict_get_files _ _ (GeoJSON (run_full r))
                    (GeoJSON (run_simple r)) (files w)
                    (output_names_differ (output_name csv (prefix_argument rest))))).
  - rewrite Hs, Hw. cbn [run_summary run_world simple_file files].
    exists (run_simple r). apply dict_get_set_same.
Qed.

Lemma main_reports_success_witness :
  main same_polygon [u "filtergeojson.py"; u "results.csv"] sample_world
  = (Ok tt,
     {| files := files sample_world_after;
        log := log sample_world_after
               ++ [Html_template (summary_candidates sample_summary)
                                 (simple_file sample_summary)] |}).
Proof.
  apply (main_reports_success polygon same_polygon (u "filtergeojson.py")
           (u "results.csv") [] sample_world sample_world_after sample_summary).
  vm_compute. reflexivity.
Defined.

(** ** The tables of a run *)












